(** * Airflow-DiscordBotOperator: the Discord bot hook and operator

    A shallow embedding of [plugins/discord_bot_plugin.py]:
    [DiscordBotWebhookHook] ([__init__], [_get_token], [_get_endpoint],
    [_build_payload], [execute]) and [DiscordBotOperator] ([execute]).

    Python values are modelled as follows.
    - A [str] is the list of its Unicode code points ([N], below 0x110000),
      so that [len] is [length] and [+] is [++].
    - A [dict] is the list of its items in insertion order.
    - Exceptions, [warnings.warn] and the calls of [HttpHook.run] are the
      effects of a small state-and-error monad [M].
    - [HttpHook.get_connection] and the outcome of [HttpHook.run] belong to
      Airflow; they are the two fields of the class [HttpHook].
    - [json.dumps] and [json.loads] belong to the Python standard library;
      module [json] models the part of them that this plugin exercises. *)

From Stdlib Require Import NArith ZArith List String Ascii Lia.
From stdpp Require Import base option list gmap strings.

Local Open Scope N_scope.

(** ** Python strings *)

Abbreviation pystr := (list N).

(** A literal of the source, given by its ASCII text. *)
Definition str (s : string) : pystr := N_of_ascii <$> list_ascii_of_string s.

(** Code points are at most [sys.maxunicode]. *)
Definition is_codepoint (c : N) : Prop := c < 0x110000.

(** [bool(s)] for a string. *)
Definition truthy (s : pystr) : bool :=
  match s with
  | [] => false
  | _ :: _ => true
  end.

(** [bool(x)] for an [Optional[str]]. *)
Definition truthy_opt (x : option pystr) : bool :=
  match x with
  | None => false
  | Some s => truthy s
  end.

(** [len(s)], a Python [int]. *)
Definition len (s : pystr) : Z := Z.of_nat (length s).

(** The quotation mark and the reverse solidus. *)
Definition QUOTE : N := 34.
Definition BACKSLASH : N := 92.

(** ** Python values that JSON text denotes *)

#[warnings="-register-all"] Inductive pyval : Type :=
  | PyNone
  | PyBool (b : bool)
  | PyStr (s : pystr)
  | PyList (l : list pyval)
  | PyDict (d : list (pystr * pyval)).

(** [d[k] = v] on a dict: an existing key keeps its place. *)
Fixpoint dict_setitem (k : pystr) (v : pyval) (d : list (pystr * pyval))
  : list (pystr * pyval) :=
  match d with
  | [] => [(k, v)]
  | (k', v') :: r =>
      if decide (k' = k) then (k', v) :: r else (k', v') :: dict_setitem k v r
  end.

(** [dict(pairs)]. *)
Definition dict_of_pairs (pairs : list (pystr * pyval)) : list (pystr * pyval) :=
  fold_left (fun d kv => dict_setitem kv.1 kv.2 d) pairs [].

(** [d.get(k)]. *)
Fixpoint dict_get (k : pystr) (d : list (pystr * pyval)) : option pyval :=
  match d with
  | [] => None
  | (k', v) :: r => if decide (k' = k) then Some v else dict_get k r
  end.

(** ** The [json] module of the standard library *)

Module json.

(** *** Encoder ([json.encoder]) *)

(** One digit of ['{0:04x}'.format(n)]. *)
Definition hexdigit (d : N) : N := if d <? 10 then 48 + d else 87 + d.

(** ['{0:04x}'.format(n)] for [n < 0x10000]. *)
Definition hex4 (n : N) : pystr :=
  [ hexdigit (n / 4096 mod 16); hexdigit (n / 256 mod 16);
    hexdigit (n / 16 mod 16); hexdigit (n mod 16) ].

(** [replace] of [py_encode_basestring_ascii]: the text that stands for one
    character. [ESCAPE_ASCII] matches the quotation mark, the reverse
    solidus and everything outside [' '..'~']; [ESCAPE_DCT] has the short
    escapes; the rest is written [\uXXXX], astral characters as a
    surrogate pair. *)
Definition escape_char (c : N) : pystr :=
  if c =? BACKSLASH then [BACKSLASH; BACKSLASH]
  else if c =? QUOTE then [BACKSLASH; QUOTE]
  else if (32 <=? c) && (c <=? 126) then [c]
  else if c =? 8 then str "\b"
  else if c =? 12 then str "\f"
  else if c =? 10 then str "\n"
  else if c =? 13 then str "\r"
  else if c =? 9 then str "\t"
  else if c <? 0x10000 then str "\u" ++ hex4 c
  else
    let n := c - 0x10000 in
    let s1 := N.lor 0xd800 (N.land (N.shiftr n 10) 0x3ff) in
    let s2 := N.lor 0xdc00 (N.land n 0x3ff) in
    str "\u" ++ hex4 s1 ++ str "\u" ++ hex4 s2.

Definition escape (s : pystr) : pystr := flat_map escape_char s.

(** [encode_basestring_ascii(s)] ([ensure_ascii] is on by default). *)
Definition encode_basestring_ascii (s : pystr) : pystr :=
  QUOTE :: escape s ++ [QUOTE].

(** [json.dumps(v)] with the default separators [", "] and [": "]. *)
Fixpoint dumps (v : pyval) : pystr :=
  match v with
  | PyNone => str "null"
  | PyBool true => str "true"
  | PyBool false => str "false"
  | PyStr s => encode_basestring_ascii s
  | PyList l =>
      str "[" ++
      (fix items (l : list pyval) : pystr :=
         match l with
         | [] => []
         | x :: r =>
             match r with
             | [] => dumps x
             | _ :: _ => dumps x ++ str ", " ++ items r
             end
         end) l ++ str "]"
  | PyDict d =>
      str "{" ++
      (fix members (d : list (pystr * pyval)) : pystr :=
         match d with
         | [] => []
         | (k, x) :: r =>
             match r with
             | [] => encode_basestring_ascii k ++ str ": " ++ dumps x
             | _ :: _ =>
                 encode_basestring_ascii k ++ str ": " ++ dumps x
                 ++ str ", " ++ members r
             end
         end) d ++ str "}"
  end.

(** *** Decoder ([json.decoder], [json.scanner]) *)

(** The value of one hexadecimal digit. *)
Definition hexval (c : N) : option N :=
  if (48 <=? c) && (c <=? 57) then Some (c - 48)
  else if (97 <=? c) && (c <=? 102) then Some (c - 87)
  else if (65 <=? c) && (c <=? 70) then Some (c - 55)
  else None.

(** [_decode_uXXXX]: four hexadecimal digits. *)
Definition decode_uXXXX (h1 h2 h3 h4 : N) : option N :=
  a ← hexval h1; b ← hexval h2; c ← hexval h3; d ← hexval h4;
  Some (((a * 16 + b) * 16 + c) * 16 + d).

(** [BACKSLASH] of [json.decoder]: the one-letter escapes. *)
Definition unescape (e : N) : option N :=
  if e =? QUOTE then Some QUOTE
  else if e =? BACKSLASH then Some BACKSLASH
  else if e =? 47 then Some 47
  else if e =? 98 then Some 8
  else if e =? 102 then Some 12
  else if e =? 110 then Some 10
  else if e =? 114 then Some 13
  else if e =? 116 then Some 9
  else None.

Definition is_high_surrogate (u : N) : bool := (0xd800 <=? u) && (u <=? 0xdbff).
Definition is_low_surrogate (u : N) : bool := (0xdc00 <=? u) && (u <=? 0xdfff).

(** [0x10000 + (((uni - 0xd800) << 10) | (uni2 - 0xdc00))]. *)
Definition join_surrogates (uni uni2 : N) : N :=
  0x10000 + N.lor (N.shiftl (uni - 0xd800) 10) (uni2 - 0xdc00).

Definition cons_char (c : N) (r : option (pystr * pystr)) : option (pystr * pystr) :=
  '(t, rest) ← r; Some (c :: t, rest).

(** [scanstring(s, end, strict=True)], on the text after the opening
    quotation mark: the decoded string and the text after the closing one.
    A raw control character, an unknown escape, a malformed [\uXXXX] and a
    missing closing mark are errors. A [\uXXXX] high surrogate directly
    followed by a [\uXXXX] low surrogate is read as one character. *)
Fixpoint scanstring (s : pystr) : option (pystr * pystr) :=
  match s with
  | [] => None
  | c :: r =>
      if c =? QUOTE then Some ([], r)
      else if c <? 32 then None
      else if negb (c =? BACKSLASH) then cons_char c (scanstring r)
      else
        match r with
        | [] => None
        | e :: r1 =>
            if negb (e =? 117) then
              match unescape e with
              | Some ch => cons_char ch (scanstring r1)
              | None => None
              end
            else
              match r1 with
              | h1 :: h2 :: h3 :: h4 :: r2 =>
                  match decode_uXXXX h1 h2 h3 h4 with
                  | None => None
                  | Some uni =>
                      match r2 with
                      | b :: u :: r3 =>
                          if is_high_surrogate uni && (b =? BACKSLASH) && (u =? 117)
                          then
                            match r3 with
                            | k1 :: k2 :: k3 :: k4 :: r4 =>
                                match decode_uXXXX k1 k2 k3 k4 with
                                | None => None
                                | Some uni2 =>
                                    if is_low_surrogate uni2
                                    then cons_char (join_surrogates uni uni2)
                                                   (scanstring r4)
                                    else cons_char uni (scanstring r2)
                                end
                            | _ => None
                            end
                          else cons_char uni (scanstring r2)
                      | _ => cons_char uni (scanstring r2)
                      end
                  end
              | _ => None
              end
        end
  end.

(** [WHITESPACE]: [' \t\n\r']. *)
Definition is_ws (c : N) : bool :=
  (c =? 32) || (c =? 9) || (c =? 10) || (c =? 13).

Fixpoint skip_ws (s : pystr) : pystr :=
  match s with
  | [] => []
  | c :: r => if is_ws c then skip_ws r else s
  end.

(** [s[idx:idx+len(lit)] == lit]: the text after the literal. *)
Fixpoint strip_prefix (lit s : pystr) : option pystr :=
  match lit, s with
  | [], _ => Some s
  | _ :: _, [] => None
  | a :: lit', c :: r => if a =? c then strip_prefix lit' r else None
  end.

(** [scan_once], [JSONObject] and [JSONArray]: one value at the head of the
    text, and the text after it. The first argument bounds the number of
    nested calls; [loads] gives more than the text can use. Numbers,
    [NaN] and [Infinity] are left out of the model: a text that holds one
    is rejected here. *)
Fixpoint scan_once (fuel : nat) (s : pystr) {struct fuel} : option (pyval * pystr) :=
  match fuel with
  | O => None
  | S fuel =>
      match s with
      | [] => None
      | c :: r =>
          if c =? QUOTE then
            '(t, rest) ← scanstring r; Some (PyStr t, rest)
          else if c =? 123 then
            let r := skip_ws r in
            match r with
            | c1 :: r1 =>
                if c1 =? 125 then Some (PyDict [], r1)
                else if c1 =? QUOTE then
                  '(pairs, rest) ← object_loop fuel r1;
                  Some (PyDict (dict_of_pairs pairs), rest)
                else None
            | [] => None
            end
          else if c =? 91 then
            let r := skip_ws r in
            match r with
            | c1 :: r1 =>
                if c1 =? 93 then Some (PyList [], r1)
                else '(values, rest) ← array_loop fuel r; Some (PyList values, rest)
            | [] => None
            end
          else
            match strip_prefix (str "null") s with
            | Some rest => Some (PyNone, rest)
            | None =>
                match strip_prefix (str "true") s with
                | Some rest => Some (PyBool true, rest)
                | None =>
                    match strip_prefix (str "false") s with
                    | Some rest => Some (PyBool false, rest)
                    | None => None
                    end
                end
            end
      end
  end
with object_loop (fuel : nat) (s : pystr) {struct fuel}
  : option (list (pystr * pyval) * pystr) :=
  match fuel with
  | O => None
  | S fuel =>
      '(key, r) ← scanstring s;
      match skip_ws r with
      | colon :: r1 =>
          if colon =? 58 then
            '(value, r2) ← scan_once fuel (skip_ws r1);
            match skip_ws r2 with
            | c :: r3 =>
                if c =? 125 then Some ([(key, value)], r3)
                else if c =? 44 then
                  match skip_ws r3 with
                  | q :: r4 =>
                      if q =? QUOTE then
                        '(pairs, rest) ← object_loop fuel r4;
                        Some ((key, value) :: pairs, rest)
                      else None
                  | [] => None
                  end
                else None
            | [] => None
            end
          else None
      | [] => None
      end
  end
with array_loop (fuel : nat) (s : pystr) {struct fuel}
  : option (list pyval * pystr) :=
  match fuel with
  | O => None
  | S fuel =>
      '(value, r) ← scan_once fuel s;
      match skip_ws r with
      | c :: r1 =>
          if c =? 93 then Some ([value], r1)
          else if c =? 44 then
            '(values, rest) ← array_loop fuel (skip_ws r1);
            Some (value :: values, rest)
          else None
      | [] => None
      end
  end.

(** [json.loads(s)]: leading white space, one value, trailing white space,
    and nothing else. *)
Definition loads (s : pystr) : option pyval :=
  '(v, rest) ← scan_once (S (length s)) (skip_ws s);
  match skip_ws rest with
  | [] => Some v
  | _ :: _ => None
  end.

End json.

(** ** Exceptions, warnings and the calls of [HttpHook.run] *)

(** The exceptions the plugin raises, and [OtherException] for whatever
    Airflow's own code raises (an unknown connection, a transport failure). *)
Inductive exn : Type :=
  | AirflowException (msg : string)
  | AirflowNotFoundException (msg : string)
  | OtherException (name : string).

(** One call of [warnings.warn(message, category, stacklevel)]. *)
Inductive warning : Type :=
  | Warn (message : string) (category : string) (stacklevel : Z).

(** One call of [HttpHook.run(endpoint, data, headers)], with the hook's
    [method]. [run_endpoint] is [None] when Python's [None] is passed. *)
Record run_call : Type := {
  run_method : pystr;
  run_endpoint : option pystr;
  run_data : pystr;
  run_headers : list (pystr * pystr)
}.

(** What one task run leaves behind: the warnings emitted and the calls of
    [HttpHook.run], oldest first. *)
Record world : Type := {
  warnings_log : list warning;
  run_log : list run_call
}.

Definition empty_world : world := {| warnings_log := []; run_log := [] |}.

Inductive outcome (A : Type) : Type :=
  | Return (a : A)
  | Raise (e : exn).
Arguments Return {A} a.
Arguments Raise {A} e.

(** A computation that may emit warnings, call [run] and raise. *)
Definition M (A : Type) : Type := world -> outcome A * world.

Definition ret {A} (a : A) : M A := fun w => (Return a, w).

Definition raise {A} (e : exn) : M A := fun w => (Raise e, w).

Definition bind {A B} (m : M A) (k : A -> M B) : M B :=
  fun w =>
    match m w with
    | (Return a, w') => k a w'
    | (Raise e, w') => (Raise e, w')
    end.

Notation "'do' x <- m ; k" := (bind m (fun x => k))
  (at level 10, x name, m at level 100, k at level 200).

(** [warnings.warn]. *)
Definition warn (message category : string) (stacklevel : Z) : M unit :=
  fun w =>
    (Return tt,
     {| warnings_log := warnings_log w ++ [Warn message category stacklevel];
        run_log := run_log w |}).

(** ** Airflow: connections and [HttpHook] *)

(** A connection as the hook reads it: [getattr(conn, "password", None)] and
    [conn.extra_dejson]. The values of the extra configuration are strings,
    as the hook's docstring and its [-> str] annotations have them. *)
Record Connection : Type := {
  password : option pystr;
  extra_dejson : gmap pystr pystr
}.

(** [extra.get(key, "")]. *)
Definition extra_get (extra : gmap pystr pystr) (key : pystr) : pystr :=
  default [] (extra !! key).

(** The base class. [get_connection] either returns the record of a
    connection identifier or raises; [transport] is how one [run] call ends:
    [None] when the request went through, [Some e] when it raised [e]. *)
Class HttpHook : Type := {
  get_connection : option pystr -> outcome Connection;
  transport : run_call -> option exn
}.

(** [HttpHook.__init__(method="POST", ...)]: the method of a hook that is
    built without one. *)
Definition default_method : pystr := str "POST".

(** [self.run(endpoint=..., data=..., headers=...)]: the call is made, and
    ends as the transport decides. *)
Definition run `{HttpHook} (method : pystr) (endpoint : option pystr)
    (data : pystr) (headers : list (pystr * pystr)) : M unit :=
  fun w =>
    let call := {| run_method := method; run_endpoint := endpoint;
                   run_data := data; run_headers := headers |} in
    (match transport call with
     | None => Return tt
     | Some e => Raise e
     end,
     {| warnings_log := warnings_log w; run_log := run_log w ++ [call] |}).

(** [conn = self.get_connection(http_conn_id)]. *)
Definition lookup `{HttpHook} (http_conn_id : option pystr) : M Connection :=
  fun w => (get_connection http_conn_id, w).

(** ** [class DiscordBotWebhookHook(HttpHook)] *)

Module DiscordBotWebhookHook.

(** The attributes of [self]. *)
Record t : Type := {
  method : pystr;
  http_conn_id : option pystr;
  token : pystr;
  endpoint : option pystr;
  message : pystr;
  tts : bool
}.

Definition _get_token `{HttpHook} (http_conn_id : option pystr) : M pystr :=
  do conn <- lookup http_conn_id ;
  let otherwise : M pystr :=
    if truthy_opt http_conn_id then
      let extra := extra_dejson conn in
      let bot_token := extra_get extra (str "bot_token") in
      do _ <- (if truthy bot_token
            then warn "'password' field is more recommended than 'bot_token' in 'extra'."
                      "Warning" 2
            else ret tt) ;
      ret bot_token
    else
      raise (AirflowNotFoundException
               "Cannot get token: No valid token nor http_conn_id supplied.")
  in
  match password conn with
  | Some p => if truthy p then ret p else otherwise
  | None => otherwise
  end.

(** [f"channels/{channel}/messages"]. *)
Definition channel_endpoint (channel : pystr) : pystr :=
  str "channels/" ++ channel ++ str "/messages".

(** The result is [None] where the Python function ends without a
    [return]. *)
Definition _get_endpoint `{HttpHook} (http_conn_id : option pystr)
    (channel : pystr) : M (option pystr) :=
  do conn <- lookup http_conn_id ;
  if truthy channel then ret (Some (channel_endpoint channel))
  else if truthy_opt http_conn_id then
    let extra := extra_dejson conn in
    let channel := extra_get extra (str "channel") in
    if truthy channel then ret (Some (channel_endpoint channel))
    else
      let endpoint := extra_get extra (str "endpoint") in
      if truthy endpoint then ret (Some endpoint)
      else ret None
  else
    raise (AirflowNotFoundException
             "Cannot get token: No valid channel_id nor http_conn_id supplied.").

Definition __init__ `{HttpHook} (http_conn_id : option pystr)
    (message channel : pystr) (tts : bool) : M t :=
  do token <- _get_token http_conn_id ;
  do endpoint <- _get_endpoint http_conn_id channel ;
  ret {| method := default_method; http_conn_id := http_conn_id;
         token := token; endpoint := endpoint;
         message := message; tts := tts |}.

Definition _build_payload (self : t) (message : pystr) : M pystr :=
  let payload : list (pystr * pyval) := [] in
  do payload <- (if (len message <=? 2000)%Z
              then ret (dict_setitem (str "content") (PyStr message) payload)
              else raise (AirflowException
                            "Discord message length must be 2000 or fewer characters.")) ;
  let payload := dict_setitem (str "tts") (PyBool (tts self)) payload in
  ret (json.dumps (PyDict payload)).

Definition execute `{HttpHook} (self : t) : M unit :=
  do discord_payload <- _build_payload self (message self) ;
  run (method self) (endpoint self) discord_payload
      [ (str "Content-type", str "application/json");
        (str "Authorization", str "Bot " ++ token self) ].

End DiscordBotWebhookHook.

(** ** [class DiscordBotOperator(SimpleHttpOperator)] *)

Module DiscordBotOperator.

(** The attributes of [self] that [__init__] stores. *)
Record t : Type := {
  http_conn_id : option pystr;
  message : pystr;
  channel : pystr;
  tts : bool
}.

(** [execute(self, context)]: build the hook, then let it send. *)
Definition execute `{HttpHook} (self : t) : M unit :=
  do hook <- DiscordBotWebhookHook.__init__ (http_conn_id self) (message self)
            (channel self) (tts self) ;
  DiscordBotWebhookHook.execute hook.

End DiscordBotOperator.

(** ** Sample deployments, for the examples *)

Module Sample.

(** A connection with a direct secret, and legacy keys in its extra
    configuration next to it. *)
Definition conn_secret : Connection :=
  {| password := Some (str "T1");
     extra_dejson := <[str "bot_token" := str "T0"]>
                       (<[str "channel" := str "42"]> ∅) |}.

(** A connection that still keeps its token in the extra configuration. *)
Definition conn_legacy : Connection :=
  {| password := None;
     extra_dejson := <[str "bot_token" := str "T2"]>
                       (<[str "endpoint" := str "channels/7/messages"]> ∅) |}.

(** A connection with nothing in it. *)
Definition conn_bare : Connection :=
  {| password := Some []; extra_dejson := ∅ |}.

Definition unknown_conn_id : exn :=
  AirflowNotFoundException "The conn_id isn't defined".

(** A deployment with three connections; any other identifier, and no
    identifier, is unknown to it. Every request goes through. *)
Definition airflow : HttpHook :=
  {| get_connection := fun id =>
       if decide (id = Some (str "discord_default")) then Return conn_secret
       else if decide (id = Some (str "discord_legacy")) then Return conn_legacy
       else if decide (id = Some (str "discord_bare")) then Return conn_bare
       else Raise unknown_conn_id;
     transport := fun _ => None |}.

(** A test double: [get_connection] is patched to return [conn] whatever
    it is asked, and the network is down. *)
Definition patched (conn : Connection) : HttpHook :=
  {| get_connection := fun _ => Return conn;
     transport := fun _ => Some (OtherException "ConnectionError") |}.

(** A message of 2001 characters. *)
Definition long_message : pystr := repeat 97 2001.

End Sample.

(** ** Vocabulary of the properties *)

Import DiscordBotWebhookHook.

(** The "not-found" kind. *)
Definition not_found (e : exn) : bool :=
  match e with
  | AirflowNotFoundException _ => true
  | _ => false
  end.

(** No direct token is to be had for [http_conn_id]: the lookup returns a
    record without a password, or fails as Airflow does for an identifier it
    does not know. *)
Definition no_direct_token `{HttpHook} (http_conn_id : option pystr) : Prop :=
  match get_connection http_conn_id with
  | Return conn => truthy_opt (password conn) = false
  | Raise e => not_found e = true
  end.

(** The call that a hook makes. *)
Definition call_of (self : DiscordBotWebhookHook.t) : run_call :=
  {| run_method := method self;
     run_endpoint := endpoint self;
     run_data := json.dumps (PyDict [(str "content", PyStr (message self));
                                     (str "tts", PyBool (tts self))]);
     run_headers := [ (str "Content-type", str "application/json");
                      (str "Authorization", str "Bot " ++ token self) ] |}.

(** A text between quotation marks. *)
Definition quoted (s : pystr) : pystr := QUOTE :: s ++ [QUOTE].

(** The body of the example, character by character: the two members are
    separated by a comma and a space, and each key from its value by a
    colon and a space, as [json.dumps] writes them. *)
Definition example_body : pystr :=
  str "{" ++ quoted (str "content") ++ str ": " ++ quoted (str "hi") ++ str ", "
  ++ quoted (str "tts") ++ str ": false}".

(** The text before the message in the payload, and the text after it. *)
Definition payload_prefix : pystr :=
  str "{" ++ quoted (str "content") ++ str ": " ++ [QUOTE].

Definition payload_suffix (tts : bool) : pystr :=
  str ", " ++ quoted (str "tts") ++ str ": "
  ++ (if tts then str "true" else str "false") ++ str "}".

(** Some high surrogate of [s] is directly followed by a low surrogate. *)
Fixpoint has_surrogate_pair (s : pystr) : bool :=
  match s with
  | [] => false
  | a :: r =>
      match r with
      | [] => false
      | b :: _ =>
          (json.is_high_surrogate a && json.is_low_surrogate b) || has_surrogate_pair r
      end
  end.

(** The text [tail] does not begin with the [\uXXXX] of a low surrogate. *)
Definition no_low_escape (tail : pystr) : Prop :=
  forall r3, tail = BACKSLASH :: 117 :: r3 ->
  exists k1 k2 k3 k4 r4 uni2,
    r3 = k1 :: k2 :: k3 :: k4 :: r4 /\
    json.decode_uXXXX k1 k2 k3 k4 = Some uni2 /\
    json.is_low_surrogate uni2 = false.

(** The shapes of the text that the encoder writes for one character [c]:
    a one-letter escape, the character itself, [\uXXXX], or a surrogate
    pair [\uXXXX\uXXXX] that the decoder joins into [c]. *)
Inductive escape_shape (c : N) : pystr -> Prop :=
  | shape_short (e : N) :
      e <> 117 -> json.unescape e = Some c -> escape_shape c [BACKSLASH; e]
  | shape_plain :
      c <> QUOTE -> c <> BACKSLASH -> 32 <= c -> escape_shape c [c]
  | shape_u :
      c < 0x10000 -> escape_shape c (BACKSLASH :: 117 :: json.hex4 c)
  | shape_pair (s1 s2 : N) :
      s1 < 0x10000 -> s2 < 0x10000 ->
      json.is_high_surrogate s1 = true -> json.is_low_surrogate s2 = true ->
      json.join_surrogates s1 s2 = c ->
      escape_shape c (BACKSLASH :: 117 :: json.hex4 s1 ++ BACKSLASH :: 117 :: json.hex4 s2).

(** A printable ASCII character: [' '..'~']. *)
Definition printable_ascii (c : N) : bool := (32 <=? c) && (c <=? 126).

(** What the decoder reads in the encoder's text of [s]: [s] itself, but
    with each high surrogate that is directly followed by a low surrogate
    joined with it, from left to right, into the one character the two
    encode. *)
Fixpoint join_pairs (s : pystr) : pystr :=
  match s with
  | [] => []
  | a :: r =>
      match r with
      | [] => [a]
      | b :: r' =>
          if json.is_high_surrogate a && json.is_low_surrogate b
          then json.join_surrogates a b :: join_pairs r'
          else a :: join_pairs r
      end
  end.

(** * Properties *)

Ltac run_monad :=
  unfold bind, lookup, ret, raise, warn in *; simpl in *.

Section Resolution.

Context `{HttpHook}.
Variable http_conn_id : option pystr.
Variable conn : Connection.
Hypothesis Hconn : get_connection http_conn_id = Return conn.

(** What [_get_token] does after a successful lookup, branch by branch. *)
Lemma get_token_unfold (w : world) :
  _get_token http_conn_id w =
    if truthy_opt (password conn) then (Return (default [] (password conn)), w)
    else if truthy_opt http_conn_id then
      let bot_token := extra_get (extra_dejson conn) (str "bot_token") in
      (Return bot_token,
       if truthy bot_token
       then {| warnings_log := warnings_log w ++
                 [Warn "'password' field is more recommended than 'bot_token' in 'extra'."
                       "Warning" 2];
               run_log := run_log w |}
       else w)
    else (Raise (AirflowNotFoundException
                   "Cannot get token: No valid token nor http_conn_id supplied."), w).
Proof.
  unfold _get_token. run_monad. rewrite Hconn.
  destruct (password conn) as [p|]; simpl.
  - destruct (truthy p); [reflexivity|].
    destruct (truthy_opt http_conn_id); [|reflexivity].
    destruct (truthy (extra_get (extra_dejson conn) (str "bot_token"))); reflexivity.
  - destruct (truthy_opt http_conn_id); [|reflexivity].
    destruct (truthy (extra_get (extra_dejson conn) (str "bot_token"))); reflexivity.
Qed.

(** What [_get_endpoint] does after a successful lookup. *)
Lemma get_endpoint_unfold (channel : pystr) (w : world) :
  _get_endpoint http_conn_id channel w =
    if truthy channel then (Return (Some (channel_endpoint channel)), w)
    else if truthy_opt http_conn_id then
      let channel := extra_get (extra_dejson conn) (str "channel") in
      let endpoint := extra_get (extra_dejson conn) (str "endpoint") in
      (Return (if truthy channel then Some (channel_endpoint channel)
               else if truthy endpoint then Some endpoint else None), w)
    else (Raise (AirflowNotFoundException
                   "Cannot get token: No valid channel_id nor http_conn_id supplied."), w).
Proof.
  unfold _get_endpoint. run_monad. rewrite Hconn.
  destruct (truthy channel); [reflexivity|].
  destruct (truthy_opt http_conn_id); [|reflexivity].
  destruct (truthy (extra_get (extra_dejson conn) (str "channel"))); [reflexivity|].
  destruct (truthy (extra_get (extra_dejson conn) (str "endpoint"))); reflexivity.
Qed.

End Resolution.

Lemma truthy_nonempty (s : pystr) : s <> [] -> truthy s = true.
Proof. destruct s; [congruence | reflexivity]. Qed.

Lemma truthy_false_nil (s : pystr) : truthy s = false -> s = [].
Proof. destruct s; [reflexivity | discriminate]. Qed.

(** An error of the lookup is the error of either resolver. *)
Lemma get_token_lookup_fails `{HttpHook} (http_conn_id : option pystr) (e : exn)
    (w : world) :
  get_connection http_conn_id = Raise e ->
  _get_token http_conn_id w = (Raise e, w).
Proof. intros E. unfold _get_token. run_monad. now rewrite E. Qed.

Lemma get_endpoint_lookup_fails `{HttpHook} (http_conn_id : option pystr)
    (channel : pystr) (e : exn) (w : world) :
  get_connection http_conn_id = Raise e ->
  _get_endpoint http_conn_id channel w = (Raise e, w).
Proof. intros E. unfold _get_endpoint. run_monad. now rewrite E. Qed.

(** A failure of [_get_token] is the failure of the constructor. *)
Lemma init_token_fails `{HttpHook} (http_conn_id : option pystr)
    (message channel : pystr) (tts : bool) (e : exn) (w w' : world) :
  _get_token http_conn_id w = (Raise e, w') ->
  __init__ http_conn_id message channel tts w = (Raise e, w').
Proof. intros E. unfold __init__, bind. now rewrite E. Qed.

(** A failure of the constructor is the failure of the operator: the hook's
    [execute], and with it [_build_payload], is not reached. *)
Lemma operator_init_fails `{HttpHook} (self : DiscordBotOperator.t) (e : exn)
    (w w' : world) :
  __init__ (DiscordBotOperator.http_conn_id self) (DiscordBotOperator.message self)
    (DiscordBotOperator.channel self) (DiscordBotOperator.tts self) w = (Raise e, w') ->
  DiscordBotOperator.execute self w = (Raise e, w').
Proof. intros E. unfold DiscordBotOperator.execute, bind. now rewrite E. Qed.

(** The dict that [_build_payload] fills. *)
Lemma payload_items (message : pystr) (tts : bool) :
  dict_setitem (str "tts") (PyBool tts)
    (dict_setitem (str "content") (PyStr message) [])
  = [(str "content", PyStr message); (str "tts", PyBool tts)].
Proof. reflexivity. Qed.

(** [_build_payload] on a message that fits. *)
Lemma build_payload_ok (self : DiscordBotWebhookHook.t) (message : pystr) (w : world) :
  (len message <= 2000)%Z ->
  _build_payload self message w
  = (Return (json.dumps (PyDict [(str "content", PyStr message);
                                 (str "tts", PyBool (tts self))])), w).
Proof.
  intros Hlen. unfold _build_payload. run_monad.
  destruct (Z.leb_spec (len message) 2000); [reflexivity | lia].
Qed.

(** [execute] on a message that fits: one call of [run], which ends as the
    transport decides. *)
Lemma execute_sends `{HttpHook} (self : DiscordBotWebhookHook.t) (w : world) :
  (len (message self) <= 2000)%Z ->
  execute self w
  = (match transport (call_of self) with
     | None => Return tt
     | Some e => Raise e
     end,
     {| warnings_log := warnings_log w; run_log := run_log w ++ [call_of self] |}).
Proof.
  intros Hlen. unfold execute, bind. rewrite (build_payload_ok _ _ _ Hlen).
  reflexivity.
Qed.

(** The operator, when both resolvers return. *)
Lemma operator_execute_sends `{HttpHook} (self : DiscordBotOperator.t)
    (tok : pystr) (ep : option pystr) (w w1 w2 : world) :
  _get_token (DiscordBotOperator.http_conn_id self) w = (Return tok, w1) ->
  _get_endpoint (DiscordBotOperator.http_conn_id self)
    (DiscordBotOperator.channel self) w1 = (Return ep, w2) ->
  (len (DiscordBotOperator.message self) <= 2000)%Z ->
  let hook := {| method := default_method;
                 http_conn_id := DiscordBotOperator.http_conn_id self;
                 token := tok; endpoint := ep;
                 message := DiscordBotOperator.message self;
                 tts := DiscordBotOperator.tts self |} in
  DiscordBotOperator.execute self w
  = (match transport (call_of hook) with
     | None => Return tt
     | Some e => Raise e
     end,
     {| warnings_log := warnings_log w2; run_log := run_log w2 ++ [call_of hook] |}).
Proof.
  intros Et Ee Hlen hook. unfold DiscordBotOperator.execute, __init__, bind.
  rewrite Et, Ee. unfold ret. apply (execute_sends hook w2 Hlen).
Qed.

(** ** The JSON text of a string, read back *)

Section Hexadecimal.

Lemma hexval_hexdigit (d : N) : d < 16 -> json.hexval (json.hexdigit d) = Some d.
Proof.
  intros Hd. unfold json.hexval, json.hexdigit.
  destruct (N.ltb_spec d 10) as [Hlt|Hge].
  - replace ((48 <=? 48 + d) && (48 + d <=? 57)) with true.
    + f_equal. lia.
    + symmetry. apply andb_true_intro. split; apply N.leb_le; lia.
  - replace ((48 <=? 87 + d) && (87 + d <=? 57)) with false.
    + replace ((97 <=? 87 + d) && (87 + d <=? 102)) with true.
      * f_equal. lia.
      * symmetry. apply andb_true_intro. split; apply N.leb_le; lia.
    + symmetry. apply andb_false_intro2. apply N.leb_gt. lia.
Qed.

(** Four digits written by the encoder are read back by the decoder. *)
Lemma decode_hex4 (n : N) :
  n < 0x10000 ->
  json.decode_uXXXX (json.hexdigit (n / 4096 mod 16)) (json.hexdigit (n / 256 mod 16))
    (json.hexdigit (n / 16 mod 16)) (json.hexdigit (n mod 16)) = Some n.
Proof.
  intros Hn. unfold json.decode_uXXXX.
  rewrite !hexval_hexdigit by (apply N.mod_lt; discriminate).
  simpl. f_equal. zify. Z.to_euclidean_division_equations. lia.
Qed.

(** Above the low [k] bits, [lor] is [+]. *)
Lemma lor_high_low (a b k : N) : b < 2 ^ k -> N.lor (a * 2 ^ k) b = a * 2 ^ k + b.
Proof.
  intros Hb.
  assert (E : N.land (a * 2 ^ k) b = 0).
  { apply N.bits_inj. intros i. rewrite N.land_spec, N.bits_0.
    destruct (N.lt_ge_cases i k) as [Hi|Hi].
    - now rewrite N.mul_pow2_bits_low.
    - destruct (N.eq_dec b 0) as [->|Hb0].
      + rewrite N.bits_0. apply andb_false_r.
      + rewrite (N.bits_above_log2 b i); [apply andb_false_r|].
        apply N.lt_le_trans with k; [|exact Hi].
        apply N.log2_lt_pow2; [lia | exact Hb]. }
  rewrite (N.add_nocarry_lxor _ _ E). symmetry. now apply N.lxor_lor.
Qed.

End Hexadecimal.

Section Surrogates.

Variable n : N.
Hypothesis Hn : n < 0x100000.

Lemma high_surrogate_of :
  N.lor 0xd800 (N.land (N.shiftr n 10) 0x3ff) = 0xd800 + n / 1024.
Proof.
  rewrite N.shiftr_div_pow2. change 0x3ff with (N.ones 10). rewrite N.land_ones.
  change 0xd800 with (54 * 2 ^ 10). rewrite lor_high_low by (apply N.mod_lt; discriminate).
  f_equal. apply N.mod_small. change (2 ^ 10) with 1024.
  apply N.Div0.div_lt_upper_bound. exact Hn.
Qed.

Lemma low_surrogate_of :
  N.lor 0xdc00 (N.land n 0x3ff) = 0xdc00 + n mod 1024.
Proof.
  change 0x3ff with (N.ones 10). rewrite N.land_ones.
  change 0xdc00 with (55 * 2 ^ 10). now rewrite lor_high_low by (apply N.mod_lt; discriminate).
Qed.

Lemma join_surrogates_of :
  json.join_surrogates (0xd800 + n / 1024) (0xdc00 + n mod 1024) = 0x10000 + n.
Proof.
  unfold json.join_surrogates. f_equal.
  pose proof (N.Div0.div_mod n 1024) as E.
  pose proof (N.mod_lt n 1024 ltac:(discriminate)) as Hr.
  set (q := n / 1024) in *. set (r := n mod 1024) in *.
  replace (0xd800 + q - 0xd800) with q by lia.
  replace (0xdc00 + r - 0xdc00) with r by lia.
  rewrite N.shiftl_mul_pow2, lor_high_low by exact Hr.
  change (2 ^ 10) with 1024. lia.
Qed.

End Surrogates.

Lemma escape_char_shape (c : N) : is_codepoint c -> escape_shape c (json.escape_char c).
Proof.
  intros Hc. unfold is_codepoint in Hc. unfold json.escape_char.
  destruct (N.eqb_spec c BACKSLASH) as [->|Hbs].
  { apply (shape_short _ BACKSLASH); [discriminate | reflexivity]. }
  destruct (N.eqb_spec c QUOTE) as [->|Hq].
  { apply (shape_short _ QUOTE); [discriminate | reflexivity]. }
  destruct ((32 <=? c) && (c <=? 126)) eqn:Hprint.
  { apply andb_prop in Hprint as [Hlo _]. apply N.leb_le in Hlo.
    now apply shape_plain. }
  destruct (N.eqb_spec c 8) as [->|_].
  { apply (shape_short _ 98); [discriminate | reflexivity]. }
  destruct (N.eqb_spec c 12) as [->|_].
  { apply (shape_short _ 102); [discriminate | reflexivity]. }
  destruct (N.eqb_spec c 10) as [->|_].
  { apply (shape_short _ 110); [discriminate | reflexivity]. }
  destruct (N.eqb_spec c 13) as [->|_].
  { apply (shape_short _ 114); [discriminate | reflexivity]. }
  destruct (N.eqb_spec c 9) as [->|_].
  { apply (shape_short _ 116); [discriminate | reflexivity]. }
  destruct (N.ltb_spec c 0x10000) as [Hbmp|Hastral].
  { now apply shape_u. }
  cbv zeta.
  assert (Hn : c - 0x10000 < 0x100000) by lia.
  rewrite (high_surrogate_of _ Hn), low_surrogate_of.
  pose proof (N.Div0.div_lt_upper_bound (c - 0x10000) 1024 1024 Hn) as Hq1.
  pose proof (N.mod_lt (c - 0x10000) 1024 ltac:(discriminate)) as Hr1.
  set (q := (c - 0x10000) / 1024) in *. set (r := (c - 0x10000) mod 1024) in *.
  apply shape_pair.
  - lia.
  - lia.
  - unfold json.is_high_surrogate. apply andb_true_intro. split; apply N.leb_le; lia.
  - unfold json.is_low_surrogate. apply andb_true_intro. split; apply N.leb_le; lia.
  - subst q r. rewrite (join_surrogates_of _ Hn). lia.
Qed.

Section Scanning.

Import json.

Lemma scan_plain (c : N) (r : pystr) :
  c <> QUOTE -> c <> BACKSLASH -> 32 <= c ->
  scanstring (c :: r) = cons_char c (scanstring r).
Proof.
  intros Hq Hb Hc. cbn [scanstring].
  rewrite (proj2 (N.eqb_neq c QUOTE) Hq), (proj2 (N.ltb_ge c 32) Hc),
    (proj2 (N.eqb_neq c BACKSLASH) Hb).
  reflexivity.
Qed.

Lemma scan_short (e ch : N) (r : pystr) :
  e <> 117 -> unescape e = Some ch ->
  scanstring (BACKSLASH :: e :: r) = cons_char ch (scanstring r).
Proof.
  intros He Hu. cbn [scanstring].
  change (BACKSLASH =? QUOTE) with false. change (BACKSLASH <? 32) with false.
  change (BACKSLASH =? BACKSLASH) with true. cbn [negb].
  rewrite (proj2 (N.eqb_neq e 117) He), Hu. reflexivity.
Qed.

Lemma scan_u (h1 h2 h3 h4 uni : N) (tail : pystr) :
  decode_uXXXX h1 h2 h3 h4 = Some uni ->
  scanstring (BACKSLASH :: 117 :: h1 :: h2 :: h3 :: h4 :: tail)
  = match tail with
    | b :: u :: r3 =>
        if is_high_surrogate uni && (b =? BACKSLASH) && (u =? 117) then
          match r3 with
          | k1 :: k2 :: k3 :: k4 :: r4 =>
              match decode_uXXXX k1 k2 k3 k4 with
              | None => None
              | Some uni2 =>
                  if is_low_surrogate uni2
                  then cons_char (join_surrogates uni uni2) (scanstring r4)
                  else cons_char uni (scanstring tail)
              end
          | _ => None
          end
        else cons_char uni (scanstring tail)
    | _ => cons_char uni (scanstring tail)
    end.
Proof.
  intros Hd. cbn [scanstring].
  change (BACKSLASH =? QUOTE) with false. change (BACKSLASH <? 32) with false.
  change (BACKSLASH =? BACKSLASH) with true. change (117 =? 117) with true.
  cbn [negb]. rewrite Hd. reflexivity.
Qed.

(** A [\uXXXX] that the decoder leaves alone. *)
Lemma scan_u_alone (h1 h2 h3 h4 uni : N) (tail : pystr) :
  decode_uXXXX h1 h2 h3 h4 = Some uni ->
  (is_high_surrogate uni = true -> no_low_escape tail) ->
  scanstring (BACKSLASH :: 117 :: h1 :: h2 :: h3 :: h4 :: tail)
  = cons_char uni (scanstring tail).
Proof.
  intros Hd Hsafe. rewrite (scan_u _ _ _ _ _ _ Hd).
  destruct tail as [|b [|u r3]]; try reflexivity.
  destruct (is_high_surrogate uni); [|reflexivity].
  destruct (N.eqb_spec b BACKSLASH) as [->|_]; [|reflexivity].
  destruct (N.eqb_spec u 117) as [->|_]; [|reflexivity].
  destruct (Hsafe eq_refl r3 eq_refl) as (k1 & k2 & k3 & k4 & r4 & uni2 & -> & Hd2 & Hlow).
  cbn [andb]. now rewrite Hd2, Hlow.
Qed.

(** A surrogate pair that the decoder joins. *)
Lemma scan_pair (s1 s2 : N) (tail : pystr) :
  s1 < 0x10000 -> s2 < 0x10000 ->
  is_high_surrogate s1 = true -> is_low_surrogate s2 = true ->
  scanstring (BACKSLASH :: 117 :: hex4 s1 ++ BACKSLASH :: 117 :: hex4 s2 ++ tail)
  = cons_char (join_surrogates s1 s2) (scanstring tail).
Proof.
  intros H1 H2 Hhi Hlo. unfold hex4. cbn [app].
  rewrite (scan_u _ _ _ _ _ _ (decode_hex4 s1 H1)).
  rewrite Hhi. change (BACKSLASH =? BACKSLASH) with true. change (117 =? 117) with true.
  cbn [andb]. now rewrite (decode_hex4 s2 H2), Hlo.
Qed.

Lemma high_not_low (u : N) : is_high_surrogate u = true -> is_low_surrogate u = false.
Proof.
  unfold is_high_surrogate, is_low_surrogate. intros Hh.
  apply andb_prop in Hh as [_ Hh]. apply N.leb_le in Hh.
  apply andb_false_intro1. apply N.leb_gt. lia.
Qed.

(** One character of the encoder's text, read back. *)
Lemma scan_escape_shape (c : N) (txt tail : pystr) :
  escape_shape c txt ->
  (is_high_surrogate c = true -> no_low_escape tail) ->
  scanstring (txt ++ tail) = cons_char c (scanstring tail).
Proof.
  intros Hshape Hsafe. destruct Hshape as [e He Hu|Hq Hb Hc|Hc|s1 s2 H1 H2 Hhi Hlo <-].
  - now apply scan_short.
  - now apply scan_plain.
  - unfold hex4. cbn [app]. apply scan_u_alone; [now apply decode_hex4 | exact Hsafe].
  - cbn [app]. rewrite <- app_assoc. cbn [app]. now apply scan_pair.
Qed.

(** What follows a character in the encoder's text. *)
Lemma no_low_escape_escape (s rest : pystr) :
  Forall is_codepoint s ->
  match s with
  | c :: _ => is_low_surrogate c = false
  | [] => True
  end ->
  no_low_escape (escape s ++ QUOTE :: rest).
Proof.
  intros Hs Hhead r3 E. destruct s as [|c s'].
  - discriminate E.
  - apply Forall_cons in Hs as [Hc _].
    unfold escape in E. cbn [flat_map] in E. rewrite <- app_assoc in E.
    destruct (escape_char_shape c Hc) as [e He Hu|Hq Hb Hc'|Hc'|s1 s2 H1 H2 Hhi Hlo Hj].
    + injection E as E1 _. congruence.
    + injection E as E1 _. congruence.
    + cbn [app hex4] in E. injection E as <-.
      eexists _, _, _, _, _, c. split; [reflexivity|]. split; [now apply decode_hex4 | exact Hhead].
    + cbn [app hex4] in E. injection E as <-.
      eexists _, _, _, _, _, s1. split; [reflexivity|].
      split; [now apply decode_hex4 | now apply high_not_low].
Qed.

(** The encoder's text of [s], read back, is [s], as long as [s] has no
    high surrogate directly followed by a low one. *)
Lemma scanstring_escape (s rest : pystr) :
  Forall is_codepoint s ->
  has_surrogate_pair s = false ->
  scanstring (escape s ++ QUOTE :: rest) = Some (s, rest).
Proof.
  induction s as [|c s' IH]; intros Hs Hpair.
  - reflexivity.
  - pose proof Hs as Hs0. apply Forall_cons in Hs as [Hc Hs'].
    assert (Hpair' : has_surrogate_pair s' = false).
    { destruct s' as [|c' s'']; [reflexivity|].
      cbn [has_surrogate_pair] in Hpair. now apply orb_false_elim in Hpair as [_ ?]. }
    unfold escape. cbn [flat_map]. rewrite <- app_assoc. fold (escape s').
    rewrite (scan_escape_shape c _ _ (escape_char_shape c Hc)).
    + rewrite (IH Hs' Hpair'). reflexivity.
    + intros Hhi. apply no_low_escape_escape; [exact Hs'|].
      destruct s' as [|c' s'']; [exact I|].
      cbn [has_surrogate_pair] in Hpair. apply orb_false_elim in Hpair as [Hp _].
      rewrite Hhi in Hp. exact Hp.
Qed.

End Scanning.

Section Parsing.

Import json.

Lemma scan_once_string (fuel : nat) (s : pystr) :
  scan_once (S fuel) (QUOTE :: s)
  = (scanstring s ≫= λ '(t, rest), Some (PyStr t, rest)).
Proof. reflexivity. Qed.

Lemma scan_once_object (fuel : nat) (s : pystr) :
  scan_once (S fuel) (123 :: QUOTE :: s)
  = (object_loop fuel s ≫= λ '(pairs, rest), Some (PyDict (dict_of_pairs pairs), rest)).
Proof. reflexivity. Qed.

(** The last member of an object, written as [json.dumps] writes it. *)
Lemma object_loop_last (fuel : nat) (s v rest : pystr) (key : pystr) (value : pyval) :
  scanstring s = Some (key, 58 :: 32 :: v) ->
  skip_ws v = v ->
  scan_once fuel v = Some (value, 125 :: rest) ->
  object_loop (S fuel) s = Some ([(key, value)], rest).
Proof.
  intros Hkey Hv Hval. cbn [object_loop]. rewrite Hkey. cbn [mbind option_bind].
  change (skip_ws (58 :: 32 :: v)) with (58 :: 32 :: v).
  change (58 =? 58) with true. cbv iota.
  change (skip_ws (32 :: v)) with (skip_ws v). rewrite Hv, Hval.
  reflexivity.
Qed.

(** A member that is followed by another one. *)
Lemma object_loop_more (fuel : nat) (s v r4 rest : pystr) (key : pystr)
    (value : pyval) (pairs : list (pystr * pyval)) :
  scanstring s = Some (key, 58 :: 32 :: v) ->
  skip_ws v = v ->
  scan_once fuel v = Some (value, 44 :: 32 :: QUOTE :: r4) ->
  object_loop fuel r4 = Some (pairs, rest) ->
  object_loop (S fuel) s = Some ((key, value) :: pairs, rest).
Proof.
  intros Hkey Hv Hval Hrest. cbn [object_loop]. rewrite Hkey. cbn [mbind option_bind].
  change (skip_ws (58 :: 32 :: v)) with (58 :: 32 :: v).
  change (58 =? 58) with true. cbv iota.
  change (skip_ws (32 :: v)) with (skip_ws v). rewrite Hv, Hval.
  cbn [mbind option_bind].
  change (skip_ws (44 :: 32 :: QUOTE :: r4)) with (44 :: 32 :: QUOTE :: r4).
  change (44 =? 125) with false. change (44 =? 44) with true. cbv iota.
  change (skip_ws (32 :: QUOTE :: r4)) with (QUOTE :: r4).
  change (QUOTE =? QUOTE) with true. cbv iota. rewrite Hrest.
  reflexivity.
Qed.

End Parsing.

Section Payload.

Variable message : pystr.
Variable tts : bool.

Lemma dumps_payload :
  json.dumps (PyDict [(str "content", PyStr message); (str "tts", PyBool tts)])
  = payload_prefix ++ json.escape message ++ QUOTE :: payload_suffix tts.
Proof.
  destruct tts; cbn [json.dumps]; unfold json.encode_basestring_ascii;
    change (json.escape (str "content")) with (str "content");
    change (json.escape (str "tts")) with (str "tts");
    unfold payload_prefix, payload_suffix, quoted;
    repeat (rewrite <- ?app_assoc; cbn [app]); reflexivity.
Qed.

Hypothesis Hvalid : Forall is_codepoint message.
Hypothesis Hpair : has_surrogate_pair message = false.

Lemma scan_payload (fuel : nat) :
  json.scan_once (4 + fuel)
    (payload_prefix ++ json.escape message ++ QUOTE :: payload_suffix tts)
  = Some (PyDict [(str "content", PyStr message); (str "tts", PyBool tts)], []).
Proof.
  change (payload_prefix ++ json.escape message ++ QUOTE :: payload_suffix tts)
    with (123 :: QUOTE :: str "content" ++ QUOTE :: 58 :: 32 :: QUOTE
            :: (json.escape message ++ QUOTE :: payload_suffix tts)).
  change (4 + fuel)%nat with (S (S (S (S fuel)))).
  rewrite scan_once_object.
  rewrite (object_loop_more (S (S fuel)) _
             (QUOTE :: json.escape message ++ QUOTE :: payload_suffix tts)
             (str "tts" ++ QUOTE :: 58 :: 32 :: (if tts then str "true}" else str "false}"))
             [] (str "content") (PyStr message) [(str "tts", PyBool tts)]).
  - reflexivity.
  - reflexivity.
  - reflexivity.
  - rewrite scan_once_string, (scanstring_escape _ _ Hvalid Hpair).
    destruct tts; reflexivity.
  - destruct tts; reflexivity.
Qed.

(** The payload text, parsed, is the payload. *)
Lemma loads_dumps_payload :
  json.loads (json.dumps (PyDict [(str "content", PyStr message);
                                  (str "tts", PyBool tts)]))
  = Some (PyDict [(str "content", PyStr message); (str "tts", PyBool tts)]).
Proof.
  rewrite dumps_payload. unfold json.loads.
  change (json.skip_ws (payload_prefix ++ json.escape message ++ QUOTE :: payload_suffix tts))
    with (payload_prefix ++ json.escape message ++ QUOTE :: payload_suffix tts).
  rewrite length_app.
  change (S (length payload_prefix + length (json.escape message ++ QUOTE :: payload_suffix tts)))
    with (4 + (10 + length (json.escape message ++ QUOTE :: payload_suffix tts)))%nat.
  rewrite scan_payload. reflexivity.
Qed.

End Payload.

(** ** The claims *)

(** C1. Token resolution follows a strict precedence. For every connection
    record the lookup returns: a non-empty password is the token, whatever
    the extra configuration holds; otherwise, with a connection identifier,
    the token is the value stored under the [bot_token] key of the extra
    configuration (the empty string when the key is missing); otherwise,
    with no connection identifier, resolution fails with the not-found
    error and leaves nothing behind. *)
Theorem get_token_precedence `{HttpHook} (http_conn_id : option pystr)
    (conn : Connection) (w : world) :
  get_connection http_conn_id = Return conn ->
  (forall p, password conn = Some p -> p <> [] ->
     _get_token http_conn_id w = (Return p, w)) /\
  (truthy_opt (password conn) = false -> truthy_opt http_conn_id = true ->
     (forall bot_token, extra_dejson conn !! str "bot_token" = Some bot_token ->
        fst (_get_token http_conn_id w) = Return bot_token) /\
     (extra_dejson conn !! str "bot_token" = None ->
        _get_token http_conn_id w = (Return [], w))) /\
  (truthy_opt (password conn) = false -> truthy_opt http_conn_id = false ->
     _get_token http_conn_id w
     = (Raise (AirflowNotFoundException
                 "Cannot get token: No valid token nor http_conn_id supplied."), w)).
Proof.
  intros Hconn. split; [|split].
  - intros p Hp Hne. rewrite (get_token_unfold _ _ Hconn), Hp. simpl.
    now rewrite (truthy_nonempty _ Hne).
  - intros Hp Hid. split.
    + intros bot_token Hbt. rewrite (get_token_unfold _ _ Hconn), Hp, Hid.
      unfold extra_get. rewrite Hbt. reflexivity.
    + intros Hbt. rewrite (get_token_unfold _ _ Hconn), Hp, Hid.
      unfold extra_get. rewrite Hbt. reflexivity.
  - intros Hp Hid. rewrite (get_token_unfold _ _ Hconn), Hp, Hid. reflexivity.
Qed.

Lemma get_token_precedence_witness :
  (@get_connection Sample.airflow (Some (str "discord_default")) = Return Sample.conn_secret /\
   extra_dejson Sample.conn_secret !! str "bot_token" = Some (str "T0") /\
   @_get_token Sample.airflow (Some (str "discord_default")) empty_world
   = (Return (str "T1"), empty_world)) /\
  (@get_connection Sample.airflow (Some (str "discord_legacy")) = Return Sample.conn_legacy /\
   extra_dejson Sample.conn_legacy !! str "bot_token" = Some (str "T2") /\
   fst (@_get_token Sample.airflow (Some (str "discord_legacy")) empty_world)
   = Return (str "T2")) /\
  (@get_connection Sample.airflow (Some (str "discord_bare")) = Return Sample.conn_bare /\
   extra_dejson Sample.conn_bare !! str "bot_token" = None /\
   @_get_token Sample.airflow (Some (str "discord_bare")) empty_world
   = (Return [], empty_world)) /\
  (@get_connection (Sample.patched Sample.conn_legacy) None = Return Sample.conn_legacy /\
   @_get_token (Sample.patched Sample.conn_legacy) None empty_world
   = (Raise (AirflowNotFoundException
               "Cannot get token: No valid token nor http_conn_id supplied."),
      empty_world)).
Proof.
  split; [|split; [|split]].
  - split; [reflexivity|]. split; [reflexivity|].
    apply (proj1 (@get_token_precedence Sample.airflow (Some (str "discord_default"))
                    Sample.conn_secret empty_world eq_refl));
      [reflexivity | discriminate].
  - split; [reflexivity|]. split; [reflexivity|].
    apply (proj1 (proj1 (proj2 (@get_token_precedence Sample.airflow
                                  (Some (str "discord_legacy")) Sample.conn_legacy
                                  empty_world eq_refl)) eq_refl eq_refl)).
    reflexivity.
  - split; [reflexivity|]. split; [reflexivity|].
    apply (proj2 (proj1 (proj2 (@get_token_precedence Sample.airflow
                                  (Some (str "discord_bare")) Sample.conn_bare
                                  empty_world eq_refl)) eq_refl eq_refl)).
    reflexivity.
  - split; [reflexivity|].
    apply (proj2 (proj2 (@get_token_precedence (Sample.patched Sample.conn_legacy) None
                           Sample.conn_legacy empty_world eq_refl)));
      reflexivity.
Defined.

(** C2. A non-empty explicit channel decides the endpoint: it is exactly
    [channels/{channel}/messages], whatever [channel] or [endpoint] the
    connection's extra configuration holds, and whether or not an
    identifier was given. *)
Theorem get_endpoint_explicit_channel `{HttpHook} (http_conn_id : option pystr)
    (conn : Connection) (channel : pystr) (w : world) :
  get_connection http_conn_id = Return conn ->
  channel <> [] ->
  _get_endpoint http_conn_id channel w
  = (Return (Some (str "channels/" ++ channel ++ str "/messages")), w).
Proof.
  intros Hconn Hne. rewrite (get_endpoint_unfold _ _ Hconn).
  now rewrite (truthy_nonempty _ Hne).
Qed.

Lemma get_endpoint_explicit_channel_witness :
  @get_connection Sample.airflow (Some (str "discord_default")) = Return Sample.conn_secret /\
  str "123" <> [] /\
  @_get_endpoint Sample.airflow (Some (str "discord_default")) (str "123") empty_world
  = (Return (Some (str "channels/123/messages")), empty_world).
Proof.
  split; [reflexivity|]. split; [discriminate|].
  apply (@get_endpoint_explicit_channel Sample.airflow (Some (str "discord_default"))
           Sample.conn_secret (str "123") empty_world eq_refl). discriminate.
Defined.

(** C3. A message of more than 2000 characters makes [execute] fail with
    the validation error, and the world is as it was: [run] has not been
    called. *)
Theorem execute_rejects_long_message `{HttpHook} (self : DiscordBotWebhookHook.t)
    (w : world) :
  (len (message self) > 2000)%Z ->
  execute self w
  = (Raise (AirflowException
              "Discord message length must be 2000 or fewer characters."), w)
  /\ run_log (snd (execute self w)) = run_log w.
Proof.
  intros Hlen.
  assert (E : execute self w
              = (Raise (AirflowException
                   "Discord message length must be 2000 or fewer characters."), w)).
  { unfold execute, _build_payload. run_monad.
    destruct (Z.leb_spec (len (message self)) 2000); [lia | reflexivity]. }
  now rewrite E.
Qed.

Lemma execute_rejects_long_message_witness :
  let self := {| method := default_method; http_conn_id := None; token := str "T1";
                 endpoint := Some (str "channels/123/messages");
                 message := Sample.long_message; tts := false |} in
  (len (message self) > 2000)%Z /\
  run_log (snd (@execute Sample.airflow self empty_world)) = [].
Proof.
  intros self. split; [reflexivity|].
  apply (@execute_rejects_long_message Sample.airflow self empty_world). reflexivity.
Defined.

(** C4, as amended. For every message of at most 2000 characters in which
    no high surrogate is directly followed by a low surrogate, the payload
    builder succeeds, and the text it returns parses back to the object
    whose [content] is the message and whose [tts] is the hook's flag. *)
Theorem build_payload_roundtrip (self : DiscordBotWebhookHook.t) (message : pystr)
    (w : world) :
  Forall is_codepoint message ->
  has_surrogate_pair message = false ->
  (len message <= 2000)%Z ->
  exists body,
    _build_payload self message w = (Return body, w) /\
    json.loads body
    = Some (PyDict [(str "content", PyStr message); (str "tts", PyBool (tts self))]).
Proof.
  intros Hvalid Hpair Hlen. eexists. split.
  - now apply build_payload_ok.
  - now apply loads_dumps_payload.
Qed.

Lemma build_payload_roundtrip_witness :
  let self := {| method := default_method; http_conn_id := None; token := str "T1";
                 endpoint := Some (str "channels/123/messages");
                 message := []; tts := true |} in
  let message := [104; 105; 0x1f600; 0xdc00; 0xd800; 34; 10] in
  Forall is_codepoint message /\
  has_surrogate_pair message = false /\
  (len message <= 2000)%Z /\
  exists body,
    _build_payload self message empty_world = (Return body, empty_world) /\
    json.loads body
    = Some (PyDict [(str "content", PyStr message); (str "tts", PyBool true)]).
Proof.
  intros self message.
  assert (Hvalid : Forall is_codepoint message)
    by (repeat (constructor; [reflexivity|]); constructor).
  split; [exact Hvalid|]. split; [reflexivity|]. split; [discriminate|].
  apply (build_payload_roundtrip self message empty_world Hvalid); [reflexivity | discriminate].
Defined.

(** C4, as stated, fails: the two-character message made of the high
    surrogate U+D83D and the low surrogate U+DE00 is written as two
    four-digit escapes, one after the other, and these parse back to the
    one character U+1F600. *)
Lemma build_payload_roundtrip_counterexample :
  let self := {| method := default_method; http_conn_id := None; token := str "T1";
                 endpoint := Some (str "channels/123/messages");
                 message := []; tts := false |} in
  let message := [0xd83d; 0xde00] in
  Forall is_codepoint message /\
  (len message <= 2000)%Z /\
  exists body,
    _build_payload self message empty_world = (Return body, empty_world) /\
    json.loads body
    = Some (PyDict [(str "content", PyStr [0x1f600]); (str "tts", PyBool false)]) /\
    json.loads body
    <> Some (PyDict [(str "content", PyStr message); (str "tts", PyBool false)]).
Proof.
  intros self message.
  split; [repeat (constructor; [reflexivity|]); constructor|].
  split; [discriminate|].
  eexists. split; [reflexivity|]. split; [reflexivity|].
  vm_compute. discriminate.
Qed.

(** C5. With no connection identifier, no explicit channel and no direct
    token, the token resolver and the endpoint resolver both fail with an
    error of the not-found kind; so does the constructor, and so does the
    operator, and no call of [run] has been made by then. *)
Theorem no_identifier_not_found `{HttpHook} (http_conn_id : option pystr)
    (message : pystr) (tts : bool) (w : world) :
  truthy_opt http_conn_id = false ->
  no_direct_token http_conn_id ->
  (exists e, not_found e = true /\ _get_token http_conn_id w = (Raise e, w)) /\
  (exists e, not_found e = true /\ _get_endpoint http_conn_id [] w = (Raise e, w)) /\
  (exists e, not_found e = true /\
     DiscordBotOperator.execute
       {| DiscordBotOperator.http_conn_id := http_conn_id;
          DiscordBotOperator.message := message;
          DiscordBotOperator.channel := [];
          DiscordBotOperator.tts := tts |} w = (Raise e, w)).
Proof.
  intros Hid Hno. unfold no_direct_token in Hno.
  destruct (get_connection http_conn_id) as [conn|e] eqn:Hconn.
  - assert (Et : _get_token http_conn_id w
                 = (Raise (AirflowNotFoundException
                      "Cannot get token: No valid token nor http_conn_id supplied."), w)).
    { now rewrite (get_token_unfold _ _ Hconn), Hno, Hid. }
    repeat split.
    + eexists. split; [|exact Et]. reflexivity.
    + eexists. split; [|rewrite (get_endpoint_unfold _ _ Hconn); simpl; rewrite Hid; reflexivity].
      reflexivity.
    + eexists. split; [|apply operator_init_fails, init_token_fails; exact Et]. reflexivity.
  - repeat split; exists e; (split; [exact Hno|]).
    + now apply get_token_lookup_fails.
    + now apply get_endpoint_lookup_fails.
    + apply operator_init_fails, init_token_fails. now apply get_token_lookup_fails.
Qed.

Lemma no_identifier_not_found_witness :
  truthy_opt None = false /\
  @no_direct_token (Sample.patched Sample.conn_legacy) None /\
  exists e, not_found e = true /\
    @_get_token (Sample.patched Sample.conn_legacy) None empty_world
    = (Raise e, empty_world).
Proof.
  split; [reflexivity|]. split; [reflexivity|].
  exact (proj1 (@no_identifier_not_found (Sample.patched Sample.conn_legacy) None
                  (str "hi") false empty_world eq_refl eq_refl)).
Defined.

(** C6. With a connection identifier, no explicit channel, and neither a
    [channel] nor an [endpoint] key in the extra configuration, endpoint
    resolution raises nothing and returns [None]: no path comes out. *)
Theorem get_endpoint_without_keys `{HttpHook} (http_conn_id : option pystr)
    (conn : Connection) (w : world) :
  get_connection http_conn_id = Return conn ->
  truthy_opt http_conn_id = true ->
  extra_dejson conn !! str "channel" = None ->
  extra_dejson conn !! str "endpoint" = None ->
  _get_endpoint http_conn_id [] w = (Return None, w).
Proof.
  intros Hconn Hid Hch Hep. rewrite (get_endpoint_unfold _ _ Hconn). simpl.
  rewrite Hid. unfold extra_get. now rewrite Hch, Hep.
Qed.

Lemma get_endpoint_without_keys_witness :
  @get_connection Sample.airflow (Some (str "discord_bare")) = Return Sample.conn_bare /\
  truthy_opt (Some (str "discord_bare")) = true /\
  extra_dejson Sample.conn_bare !! str "channel" = None /\
  extra_dejson Sample.conn_bare !! str "endpoint" = None /\
  @_get_endpoint Sample.airflow (Some (str "discord_bare")) [] empty_world
  = (Return None, empty_world).
Proof.
  repeat (split; [reflexivity|]).
  apply (@get_endpoint_without_keys Sample.airflow (Some (str "discord_bare"))
           Sample.conn_bare empty_world); reflexivity.
Defined.

(** C7. With an identifier, no direct secret and a non-empty [bot_token]
    in the extra configuration, token resolution returns that value, and
    the warnings emitted are those from before and one more. *)
Theorem get_token_legacy_warns_once `{HttpHook} (http_conn_id : option pystr)
    (conn : Connection) (bot_token : pystr) (w : world) :
  get_connection http_conn_id = Return conn ->
  truthy_opt http_conn_id = true ->
  truthy_opt (password conn) = false ->
  extra_dejson conn !! str "bot_token" = Some bot_token ->
  bot_token <> [] ->
  _get_token http_conn_id w
  = (Return bot_token,
     {| warnings_log := warnings_log w ++
          [Warn "'password' field is more recommended than 'bot_token' in 'extra'."
                "Warning" 2];
        run_log := run_log w |}).
Proof.
  intros Hconn Hid Hp Hbt Hne. rewrite (get_token_unfold _ _ Hconn), Hp, Hid.
  unfold extra_get. rewrite Hbt. simpl. now rewrite (truthy_nonempty _ Hne).
Qed.

Lemma get_token_legacy_warns_once_witness :
  @get_connection Sample.airflow (Some (str "discord_legacy")) = Return Sample.conn_legacy /\
  truthy_opt (Some (str "discord_legacy")) = true /\
  truthy_opt (password Sample.conn_legacy) = false /\
  extra_dejson Sample.conn_legacy !! str "bot_token" = Some (str "T2") /\
  str "T2" <> [] /\
  @_get_token Sample.airflow (Some (str "discord_legacy")) empty_world
  = (Return (str "T2"),
     {| warnings_log :=
          [Warn "'password' field is more recommended than 'bot_token' in 'extra'."
                "Warning" 2];
        run_log := [] |}).
Proof.
  repeat (split; [reflexivity|]). split; [discriminate|].
  apply (@get_token_legacy_warns_once Sample.airflow (Some (str "discord_legacy"))
           Sample.conn_legacy (str "T2") empty_world); try reflexivity.
  discriminate.
Defined.

(** C8. The example: a connection whose password is [T1], channel [123],
    message [hi], no text-to-speech. The operator makes one call of [run]:
    a POST to [channels/123/messages], whose body is the JSON text of the
    object with [content] = [hi] and [tts] = [false], with the headers
    [Content-type: application/json] and [Authorization: Bot T1]. *)
Theorem example_request `{HttpHook} (http_conn_id : option pystr)
    (conn : Connection) (w : world) :
  get_connection http_conn_id = Return conn ->
  password conn = Some (str "T1") ->
  snd (DiscordBotOperator.execute
         {| DiscordBotOperator.http_conn_id := http_conn_id;
            DiscordBotOperator.message := str "hi";
            DiscordBotOperator.channel := str "123";
            DiscordBotOperator.tts := false |} w)
  = {| warnings_log := warnings_log w;
       run_log := run_log w ++
         [ {| run_method := str "POST";
              run_endpoint := Some (str "channels/123/messages");
              run_data := example_body;
              run_headers := [ (str "Content-type", str "application/json");
                               (str "Authorization", str "Bot T1") ] |} ] |}
  /\ json.loads example_body
     = Some (PyDict [(str "content", PyStr (str "hi")); (str "tts", PyBool false)]).
Proof.
  intros Hconn Hp. split; [|reflexivity].
  assert (Et : _get_token http_conn_id w = (Return (str "T1"), w)).
  { rewrite (get_token_unfold _ _ Hconn), Hp. reflexivity. }
  assert (Ee : _get_endpoint http_conn_id (str "123") w
               = (Return (Some (str "channels/123/messages")), w)).
  { rewrite (get_endpoint_unfold _ _ Hconn). reflexivity. }
  rewrite (operator_execute_sends
             {| DiscordBotOperator.http_conn_id := http_conn_id;
                DiscordBotOperator.message := str "hi";
                DiscordBotOperator.channel := str "123";
                DiscordBotOperator.tts := false |}
             _ _ w w w Et Ee); [reflexivity|].
  vm_compute. discriminate.
Qed.

Lemma example_request_witness :
  @get_connection Sample.airflow (Some (str "discord_default")) = Return Sample.conn_secret /\
  password Sample.conn_secret = Some (str "T1") /\
  run_log (snd (@DiscordBotOperator.execute Sample.airflow
                  {| DiscordBotOperator.http_conn_id := Some (str "discord_default");
                     DiscordBotOperator.message := str "hi";
                     DiscordBotOperator.channel := str "123";
                     DiscordBotOperator.tts := false |} empty_world))
  = [ {| run_method := str "POST";
         run_endpoint := Some (str "channels/123/messages");
         run_data := example_body;
         run_headers := [ (str "Content-type", str "application/json");
                          (str "Authorization", str "Bot T1") ] |} ].
Proof.
  split; [reflexivity|]. split; [reflexivity|].
  exact (f_equal run_log
           (proj1 (@example_request Sample.airflow (Some (str "discord_default"))
                     Sample.conn_secret empty_world eq_refl eq_refl))).
Defined.

(** C9. With an identifier, and with neither a non-empty password nor a
    non-empty [bot_token], token resolution returns the empty string,
    raises nothing and warns of nothing; the request that follows, when the
    endpoint resolves and the message fits, has the header
    [Authorization: Bot ] with nothing after it. *)
Theorem get_token_empty `{HttpHook} (http_conn_id : option pystr)
    (conn : Connection) (w : world) :
  get_connection http_conn_id = Return conn ->
  truthy_opt http_conn_id = true ->
  truthy_opt (password conn) = false ->
  truthy (extra_get (extra_dejson conn) (str "bot_token")) = false ->
  _get_token http_conn_id w = (Return [], w) /\
  forall (message channel : pystr) (tts : bool) (ep : option pystr),
    fst (_get_endpoint http_conn_id channel w) = Return ep ->
    (len message <= 2000)%Z ->
    run_log (snd (DiscordBotOperator.execute
                    {| DiscordBotOperator.http_conn_id := http_conn_id;
                       DiscordBotOperator.message := message;
                       DiscordBotOperator.channel := channel;
                       DiscordBotOperator.tts := tts |} w))
    = run_log w ++
      [ {| run_method := str "POST";
           run_endpoint := ep;
           run_data := json.dumps (PyDict [(str "content", PyStr message);
                                           (str "tts", PyBool tts)]);
           run_headers := [ (str "Content-type", str "application/json");
                            (str "Authorization", str "Bot ") ] |} ].
Proof.
  intros Hconn Hid Hp Hbt.
  assert (Et : _get_token http_conn_id w = (Return [], w)).
  { rewrite (get_token_unfold _ _ Hconn), Hp, Hid. simpl. rewrite Hbt.
    now rewrite (truthy_false_nil _ Hbt). }
  split; [exact Et|].
  intros message channel tts ep Hep Hlen.
  assert (Ee : _get_endpoint http_conn_id channel w = (Return ep, w)).
  { rewrite (get_endpoint_unfold _ _ Hconn) in *.
    destruct (truthy channel); [simpl in Hep; congruence|].
    rewrite Hid in *. simpl in Hep. congruence. }
  rewrite (operator_execute_sends
             {| DiscordBotOperator.http_conn_id := http_conn_id;
                DiscordBotOperator.message := message;
                DiscordBotOperator.channel := channel;
                DiscordBotOperator.tts := tts |} [] ep w w w Et Ee Hlen).
  reflexivity.
Qed.

Lemma get_token_empty_witness :
  @get_connection Sample.airflow (Some (str "discord_bare")) = Return Sample.conn_bare /\
  truthy_opt (Some (str "discord_bare")) = true /\
  truthy_opt (password Sample.conn_bare) = false /\
  truthy (extra_get (extra_dejson Sample.conn_bare) (str "bot_token")) = false /\
  @_get_token Sample.airflow (Some (str "discord_bare")) empty_world
  = (Return [], empty_world).
Proof.
  repeat (split; [reflexivity|]).
  apply (@get_token_empty Sample.airflow (Some (str "discord_bare"))
           Sample.conn_bare empty_world); reflexivity.
Defined.

(** C10. An explicit channel that is the empty string counts as none:
    with an identifier, the endpoint is built from the value stored under
    the [channel] key of the extra configuration when that is not empty,
    else it is the value stored under the [endpoint] key when that is not
    empty, else there is none; without an identifier, the operator fails
    with an error of the not-found kind whatever the message is, over-long
    ones included: the failure comes from the constructor, and the length
    check is not reached. *)
Theorem empty_channel_is_absent `{HttpHook} (http_conn_id : option pystr)
    (conn : Connection) (w : world) :
  get_connection http_conn_id = Return conn ->
  (truthy_opt http_conn_id = true ->
   (forall channel,
      extra_dejson conn !! str "channel" = Some channel -> channel <> [] ->
      _get_endpoint http_conn_id [] w
      = (Return (Some (str "channels/" ++ channel ++ str "/messages")), w)) /\
   (forall endpoint,
      extra_dejson conn !! str "channel" = None \/
      extra_dejson conn !! str "channel" = Some [] ->
      extra_dejson conn !! str "endpoint" = Some endpoint -> endpoint <> [] ->
      _get_endpoint http_conn_id [] w = (Return (Some endpoint), w)) /\
   (extra_dejson conn !! str "channel" = None \/
    extra_dejson conn !! str "channel" = Some [] ->
    extra_dejson conn !! str "endpoint" = None \/
    extra_dejson conn !! str "endpoint" = Some [] ->
    _get_endpoint http_conn_id [] w = (Return None, w))) /\
  (truthy_opt http_conn_id = false ->
   forall (message : pystr) (tts : bool),
   exists e w',
     not_found e = true /\
     __init__ http_conn_id message [] tts w = (Raise e, w') /\
     DiscordBotOperator.execute
       {| DiscordBotOperator.http_conn_id := http_conn_id;
          DiscordBotOperator.message := message;
          DiscordBotOperator.channel := [];
          DiscordBotOperator.tts := tts |} w = (Raise e, w')).
Proof.
  intros Hconn. split; intros Hid.
  - assert (Hno : forall key,
              extra_dejson conn !! key = None \/ extra_dejson conn !! key = Some [] ->
              extra_get (extra_dejson conn) key = []).
    { intros key [E|E]; unfold extra_get; now rewrite E. }
    split; [|split].
    + intros channel Hch Hne. rewrite (get_endpoint_unfold _ _ Hconn). simpl.
      rewrite Hid. unfold extra_get. rewrite Hch. simpl.
      now rewrite (truthy_nonempty _ Hne).
    + intros endpoint Hch Hep Hne. rewrite (get_endpoint_unfold _ _ Hconn). simpl.
      rewrite Hid, (Hno _ Hch). unfold extra_get. rewrite Hep. simpl.
      now rewrite (truthy_nonempty _ Hne).
    + intros Hch Hep. rewrite (get_endpoint_unfold _ _ Hconn). simpl.
      now rewrite Hid, (Hno _ Hch), (Hno _ Hep).
  - intros message tts.
    assert (Ee : forall w0, _get_endpoint http_conn_id [] w0
              = (Raise (AirflowNotFoundException
                   "Cannot get token: No valid channel_id nor http_conn_id supplied."), w0)).
    { intros w0. rewrite (get_endpoint_unfold _ _ Hconn). simpl. now rewrite Hid. }
    destruct (_get_token http_conn_id w) as [[tok|e] w1] eqn:Et.
    + assert (Ei : __init__ http_conn_id message [] tts w
                   = (Raise (AirflowNotFoundException
                        "Cannot get token: No valid channel_id nor http_conn_id supplied."),
                      w1)).
      { unfold __init__, bind. now rewrite Et, Ee. }
      eexists _, w1. split; [|split; [exact Ei|]]; [reflexivity|].
      apply operator_init_fails. exact Ei.
    + assert (Hnf : not_found e = true).
      { rewrite (get_token_unfold _ _ Hconn), Hid in Et.
        destruct (truthy_opt (password conn)); inversion Et. reflexivity. }
      exists e, w1. split; [exact Hnf|]. split.
      * now apply init_token_fails.
      * now apply operator_init_fails, init_token_fails.
Qed.

Lemma empty_channel_is_absent_witness :
  (@get_connection Sample.airflow (Some (str "discord_default")) = Return Sample.conn_secret /\
   extra_dejson Sample.conn_secret !! str "channel" = Some (str "42") /\
   @_get_endpoint Sample.airflow (Some (str "discord_default")) [] empty_world
   = (Return (Some (str "channels/42/messages")), empty_world)) /\
  (@get_connection Sample.airflow (Some (str "discord_legacy")) = Return Sample.conn_legacy /\
   extra_dejson Sample.conn_legacy !! str "channel" = None /\
   extra_dejson Sample.conn_legacy !! str "endpoint" = Some (str "channels/7/messages") /\
   @_get_endpoint Sample.airflow (Some (str "discord_legacy")) [] empty_world
   = (Return (Some (str "channels/7/messages")), empty_world)) /\
  (@get_connection (Sample.patched Sample.conn_secret) None = Return Sample.conn_secret /\
   truthy_opt None = false /\
   (len Sample.long_message > 2000)%Z /\
   exists e w',
     not_found e = true /\
     @__init__ (Sample.patched Sample.conn_secret) None Sample.long_message [] false
       empty_world = (Raise e, w') /\
     @DiscordBotOperator.execute (Sample.patched Sample.conn_secret)
       {| DiscordBotOperator.http_conn_id := None;
          DiscordBotOperator.message := Sample.long_message;
          DiscordBotOperator.channel := [];
          DiscordBotOperator.tts := false |} empty_world = (Raise e, w')).
Proof.
  split; [|split].
  - split; [reflexivity|]. split; [reflexivity|].
    apply (proj1 (proj1 (@empty_channel_is_absent Sample.airflow
                           (Some (str "discord_default")) Sample.conn_secret
                           empty_world eq_refl) eq_refl) (str "42"));
      [reflexivity | discriminate].
  - split; [reflexivity|]. split; [reflexivity|]. split; [reflexivity|].
    apply (proj1 (proj2 (proj1 (@empty_channel_is_absent Sample.airflow
                                  (Some (str "discord_legacy")) Sample.conn_legacy
                                  empty_world eq_refl) eq_refl))
             (str "channels/7/messages"));
      [left; reflexivity | reflexivity | discriminate].
  - split; [reflexivity|]. split; [reflexivity|]. split; [reflexivity|].
    exact (proj2 (@empty_channel_is_absent (Sample.patched Sample.conn_secret) None
                    Sample.conn_secret empty_world eq_refl)
             eq_refl Sample.long_message false).
Defined.

(** ** Further properties of the resolvers and of the operator *)

(** An error of the connection lookup is the error of the operator, as it
    is: nothing is caught or rewrapped, no warning is emitted and [run] is
    not called, and an explicit channel does not help. *)
Theorem operator_lookup_fails `{HttpHook} (self : DiscordBotOperator.t) (e : exn)
    (w : world) :
  get_connection (DiscordBotOperator.http_conn_id self) = Raise e ->
  DiscordBotOperator.execute self w = (Raise e, w).
Proof.
  intros E. apply operator_init_fails, init_token_fails.
  now apply get_token_lookup_fails.
Qed.

Lemma operator_lookup_fails_witness :
  @get_connection Sample.airflow (Some (str "discord_missing")) = Raise Sample.unknown_conn_id /\
  @DiscordBotOperator.execute Sample.airflow
    {| DiscordBotOperator.http_conn_id := Some (str "discord_missing");
       DiscordBotOperator.message := str "hi";
       DiscordBotOperator.channel := str "123";
       DiscordBotOperator.tts := false |} empty_world
  = (Raise Sample.unknown_conn_id, empty_world).
Proof.
  split; [reflexivity|].
  apply (@operator_lookup_fails Sample.airflow). reflexivity.
Defined.

Lemma world_eta (w : world) :
  w = {| warnings_log := warnings_log w ++ []; run_log := run_log w |}.
Proof. destruct w. simpl. now rewrite app_nil_r. Qed.

(** What [_get_token] leaves behind, whatever it is given. *)
Lemma get_token_footprint `{HttpHook} (http_conn_id : option pystr) (w : world) :
  exists ws,
    snd (_get_token http_conn_id w)
    = {| warnings_log := warnings_log w ++ ws; run_log := run_log w |}
    /\ (length ws <= 1)%nat.
Proof.
  destruct (get_connection http_conn_id) as [conn|e] eqn:Hconn.
  - rewrite (get_token_unfold _ _ Hconn).
    destruct (truthy_opt (password conn)).
    { exists []. split; [apply world_eta | simpl; lia]. }
    destruct (truthy_opt http_conn_id).
    + cbv zeta. destruct (truthy (extra_get (extra_dejson conn) (str "bot_token"))).
      * eexists [_]. split; [reflexivity | simpl; lia].
      * exists []. split; [apply world_eta | simpl; lia].
    + exists []. split; [apply world_eta | simpl; lia].
  - rewrite (get_token_lookup_fails _ _ _ Hconn).
    exists []. split; [apply world_eta | simpl; lia].
Qed.

(** [_get_endpoint] leaves nothing behind. *)
Lemma get_endpoint_world `{HttpHook} (http_conn_id : option pystr) (channel : pystr)
    (w : world) :
  snd (_get_endpoint http_conn_id channel w) = w.
Proof.
  destruct (get_connection http_conn_id) as [conn|e] eqn:Hconn.
  - rewrite (get_endpoint_unfold _ _ Hconn).
    destruct (truthy channel); [reflexivity|].
    destruct (truthy_opt http_conn_id); reflexivity.
  - now rewrite (get_endpoint_lookup_fails _ _ _ _ Hconn).
Qed.

(** What [execute] of the hook leaves behind. *)
Lemma execute_footprint `{HttpHook} (self : DiscordBotWebhookHook.t) (w : world) :
  exists calls,
    snd (execute self w)
    = {| warnings_log := warnings_log w; run_log := run_log w ++ calls |}
    /\ (length calls <= 1)%nat.
Proof.
  destruct (Z.leb_spec (len (message self)) 2000) as [Hle|Hgt].
  - rewrite (execute_sends _ _ Hle). eexists [_]. split; [reflexivity | simpl; lia].
  - unfold execute, _build_payload. run_monad.
    destruct (Z.leb_spec (len (message self)) 2000); [lia|].
    exists []. split; [|simpl; lia]. destruct w; simpl. now rewrite app_nil_r.
Qed.

(** One task run emits at most one warning and calls [run] at most once,
    and what was logged before stays as it was. This holds for every
    operator, every deployment and every outcome. *)
Theorem operator_footprint `{HttpHook} (self : DiscordBotOperator.t) (w : world) :
  exists ws calls,
    snd (DiscordBotOperator.execute self w)
    = {| warnings_log := warnings_log w ++ ws; run_log := run_log w ++ calls |}
    /\ (length ws <= 1)%nat /\ (length calls <= 1)%nat.
Proof.
  destruct (get_token_footprint (DiscordBotOperator.http_conn_id self) w)
    as (ws & Ew & Hws).
  pose proof (get_endpoint_world (DiscordBotOperator.http_conn_id self)
                (DiscordBotOperator.channel self)) as Ee.
  unfold DiscordBotOperator.execute, __init__, bind.
  destruct (_get_token (DiscordBotOperator.http_conn_id self) w) as [[tok|e] w1].
  - simpl in Ew. specialize (Ee w1).
    destruct (_get_endpoint (DiscordBotOperator.http_conn_id self)
                (DiscordBotOperator.channel self) w1) as [[ep|e] w2].
    + simpl in Ee. subst w2. unfold ret.
      match goal with |- context [execute ?h w1] =>
        destruct (execute_footprint h w1) as (calls & Ec & Hc) end.
      exists ws, calls. rewrite Ec, Ew. simpl. auto.
    + simpl in Ee. subst w2. exists ws, []. simpl. rewrite Ew. simpl.
      rewrite app_nil_r. split; [reflexivity|]. split; [exact Hws | lia].
  - simpl in Ew. exists ws, []. simpl. rewrite Ew. simpl.
    rewrite app_nil_r. split; [reflexivity|]. split; [exact Hws | lia].
Qed.

(** [execute] of the hook on a message that does not fit. *)
Lemma execute_too_long `{HttpHook} (self : DiscordBotWebhookHook.t) (w : world) :
  (len (message self) > 2000)%Z ->
  execute self w
  = (Raise (AirflowException
              "Discord message length must be 2000 or fewer characters."), w).
Proof.
  intros Hlen. unfold execute, _build_payload. run_monad.
  destruct (Z.leb_spec (len (message self)) 2000); [lia | reflexivity].
Qed.

(** When the operator returns without raising, it has sent exactly one
    request: the message has at most 2000 characters, the transport took
    the call, and the call is a POST whose body is the JSON text of the
    operator's message and flag and whose [Authorization] header is [Bot ]
    followed by the token that [_get_token] returned. *)
Theorem operator_success_sent `{HttpHook} (self : DiscordBotOperator.t) (w w' : world) :
  DiscordBotOperator.execute self w = (Return tt, w') ->
  (len (DiscordBotOperator.message self) <= 2000)%Z /\
  exists call tok,
    run_log w' = run_log w ++ [call] /\
    transport call = None /\
    fst (_get_token (DiscordBotOperator.http_conn_id self) w) = Return tok /\
    run_method call = str "POST" /\
    run_data call
    = json.dumps (PyDict [(str "content", PyStr (DiscordBotOperator.message self));
                          (str "tts", PyBool (DiscordBotOperator.tts self))]) /\
    run_headers call = [ (str "Content-type", str "application/json");
                         (str "Authorization", str "Bot " ++ tok) ].
Proof.
  intros E.
  destruct (get_token_footprint (DiscordBotOperator.http_conn_id self) w)
    as (ws & Ew & _).
  destruct (_get_token (DiscordBotOperator.http_conn_id self) w) as [[tok|e] w1] eqn:Et;
    [|rewrite (operator_init_fails _ _ _ _ (init_token_fails _ _ _ _ _ _ _ Et)) in E;
      discriminate].
  pose proof (get_endpoint_world (DiscordBotOperator.http_conn_id self)
                (DiscordBotOperator.channel self) w1) as Ee.
  destruct (_get_endpoint (DiscordBotOperator.http_conn_id self)
              (DiscordBotOperator.channel self) w1) as [[ep|e] w2] eqn:Eep.
  2:{ unfold DiscordBotOperator.execute, __init__, bind in E. rewrite Et, Eep in E.
      discriminate. }
  simpl in Ee, Ew. subst w2.
  destruct (Z.leb_spec (len (DiscordBotOperator.message self)) 2000) as [Hle|Hgt].
  - split; [exact Hle|].
    rewrite (operator_execute_sends self tok ep w w1 w1 Et Eep Hle) in E.
    set (call := call_of _) in E.
    exists call, tok. destruct (transport call) eqn:Htr; [discriminate|].
    injection E as <-. simpl. rewrite Ew. simpl.
    repeat split; reflexivity.
  - exfalso. unfold DiscordBotOperator.execute, __init__, bind in E.
    rewrite Et, Eep in E. unfold ret in E.
    rewrite execute_too_long in E by (simpl; lia). discriminate.
Qed.

Lemma operator_success_sent_witness :
  let self := {| DiscordBotOperator.http_conn_id := Some (str "discord_legacy");
                 DiscordBotOperator.message := str "hi";
                 DiscordBotOperator.channel := [];
                 DiscordBotOperator.tts := true |} in
  exists w',
    @DiscordBotOperator.execute Sample.airflow self empty_world = (Return tt, w') /\
    exists call tok,
      run_log w' = [call] /\
      run_headers call = [ (str "Content-type", str "application/json");
                           (str "Authorization", str "Bot " ++ tok) ].
Proof.
  intros self. eexists. split; [reflexivity|].
  destruct (@operator_success_sent Sample.airflow self empty_world _ eq_refl)
    as (_ & call & tok & E1 & _ & _ & _ & _ & E2).
  exists call, tok. split; [exact E1 | exact E2].
Defined.

(** A failure of the transport is the failure of the operator, as it is:
    when the hook is built and the message fits, the operator makes its one
    call, raises what the transport raised, and does not call again. *)
Theorem transport_failure_propagates `{HttpHook} (self : DiscordBotOperator.t)
    (hook : DiscordBotWebhookHook.t) (e : exn) (w w1 : world) :
  __init__ (DiscordBotOperator.http_conn_id self) (DiscordBotOperator.message self)
    (DiscordBotOperator.channel self) (DiscordBotOperator.tts self) w
  = (Return hook, w1) ->
  (len (DiscordBotOperator.message self) <= 2000)%Z ->
  transport (call_of hook) = Some e ->
  DiscordBotOperator.execute self w
  = (Raise e,
     {| warnings_log := warnings_log w1; run_log := run_log w1 ++ [call_of hook] |}).
Proof.
  intros Ei Hlen Htr.
  assert (Hm : message hook = DiscordBotOperator.message self).
  { unfold __init__, bind in Ei.
    destruct (_get_token _ w) as [[tok|?] w0]; [|discriminate].
    destruct (_get_endpoint _ _ w0) as [[ep|?] w2]; [|discriminate].
    unfold ret in Ei. injection Ei as <- _. reflexivity. }
  unfold DiscordBotOperator.execute, bind. rewrite Ei.
  rewrite execute_sends by (rewrite Hm; exact Hlen). now rewrite Htr.
Qed.

Lemma transport_failure_propagates_witness :
  let self := {| DiscordBotOperator.http_conn_id := Some (str "discord_default");
                 DiscordBotOperator.message := str "hi";
                 DiscordBotOperator.channel := str "123";
                 DiscordBotOperator.tts := false |} in
  let hook := {| method := default_method;
                 http_conn_id := Some (str "discord_default");
                 token := str "T1";
                 endpoint := Some (str "channels/123/messages");
                 message := str "hi"; tts := false |} in
  @DiscordBotOperator.execute (Sample.patched Sample.conn_secret) self empty_world
  = (Raise (OtherException "ConnectionError"),
     {| warnings_log := []; run_log := [call_of hook] |}).
Proof.
  intros self hook.
  apply (@transport_failure_propagates (Sample.patched Sample.conn_secret) self hook
           (OtherException "ConnectionError") empty_world empty_world);
    [reflexivity | discriminate | reflexivity].
Defined.

(** With a connection identifier and a record for it, building the hook
    never raises, however little the record holds: the token may be empty
    and the endpoint may be [None]. The hook keeps the message and the
    flag it was given, and [run] has not been called. *)
Theorem init_succeeds_with_identifier `{HttpHook} (http_conn_id : option pystr)
    (conn : Connection) (message channel : pystr) (tts : bool) (w : world) :
  get_connection http_conn_id = Return conn ->
  truthy_opt http_conn_id = true ->
  exists hook w',
    __init__ http_conn_id message channel tts w = (Return hook, w') /\
    DiscordBotWebhookHook.message hook = message /\
    DiscordBotWebhookHook.tts hook = tts /\
    run_log w' = run_log w.
Proof.
  intros Hconn Hid.
  destruct (get_token_footprint http_conn_id w) as (ws & Ew & _).
  destruct (_get_token http_conn_id w) as [[tok|e] w1] eqn:Et.
  - assert (Ee : exists ep, _get_endpoint http_conn_id channel w1 = (Return ep, w1)).
    { rewrite (get_endpoint_unfold _ _ Hconn), Hid.
      destruct (truthy channel); eexists; reflexivity. }
    destruct Ee as (ep & Ee). unfold __init__, bind. rewrite Et, Ee. unfold ret.
    eexists _, w1. split; [reflexivity|]. simpl in Ew. rewrite Ew. repeat split.
  - exfalso. rewrite (get_token_unfold _ _ Hconn), Hid in Et.
    destruct (truthy_opt (password conn)); discriminate.
Qed.

Lemma init_succeeds_with_identifier_witness :
  @get_connection Sample.airflow (Some (str "discord_bare")) = Return Sample.conn_bare /\
  truthy_opt (Some (str "discord_bare")) = true /\
  exists hook w',
    @__init__ Sample.airflow (Some (str "discord_bare")) (str "hi") [] false empty_world
    = (Return hook, w') /\
    DiscordBotWebhookHook.message hook = str "hi" /\
    DiscordBotWebhookHook.tts hook = false /\
    run_log w' = [].
Proof.
  split; [reflexivity|]. split; [reflexivity|].
  apply (@init_succeeds_with_identifier Sample.airflow (Some (str "discord_bare"))
           Sample.conn_bare (str "hi") [] false empty_world); reflexivity.
Defined.

(** [_get_token] warns exactly when it falls back to a non-empty
    [bot_token]: the record has no usable password, an identifier was
    given, and the [bot_token] key of the extra configuration is not
    empty. In every other case it leaves the world as it was. *)
Theorem get_token_warns_iff `{HttpHook} (http_conn_id : option pystr)
    (conn : Connection) (w : world) :
  get_connection http_conn_id = Return conn ->
  snd (_get_token http_conn_id w) <> w <->
  truthy_opt (password conn) = false /\
  truthy_opt http_conn_id = true /\
  truthy (extra_get (extra_dejson conn) (str "bot_token")) = true.
Proof.
  intros Hconn. rewrite (get_token_unfold _ _ Hconn).
  destruct (truthy_opt (password conn)); [simpl; split; [congruence | intros (? & _); discriminate]|].
  destruct (truthy_opt http_conn_id); [|simpl; split; [congruence | intros (_ & ? & _); discriminate]].
  cbv zeta. destruct (truthy (extra_get (extra_dejson conn) (str "bot_token"))).
  - simpl. split; [auto|]. intros _ E. apply (f_equal warnings_log) in E. simpl in E.
    apply (f_equal length) in E. rewrite length_app in E. simpl in E. lia.
  - simpl. split; [congruence | intros (_ & _ & ?); discriminate].
Qed.

Lemma get_token_warns_iff_witness :
  @get_connection Sample.airflow (Some (str "discord_legacy")) = Return Sample.conn_legacy /\
  snd (@_get_token Sample.airflow (Some (str "discord_legacy")) empty_world) <> empty_world.
Proof.
  split; [reflexivity|].
  apply (@get_token_warns_iff Sample.airflow (Some (str "discord_legacy"))
           Sample.conn_legacy empty_world eq_refl).
  repeat split.
Defined.

(** Endpoint resolution has no effect of its own, whatever it is given and
    however the lookup ends, and an endpoint it returns is never the empty
    string: the result is a path of at least one character, or [None]. *)
Theorem get_endpoint_silent_nonempty `{HttpHook} (http_conn_id : option pystr)
    (channel : pystr) (w : world) :
  snd (_get_endpoint http_conn_id channel w) = w /\
  forall ep, fst (_get_endpoint http_conn_id channel w) = Return (Some ep) -> ep <> [].
Proof.
  destruct (get_connection http_conn_id) as [conn|e] eqn:Hconn.
  - rewrite (get_endpoint_unfold _ _ Hconn).
    destruct (truthy channel); [split; [reflexivity|]; intros ep E; injection E as <-; discriminate|].
    destruct (truthy_opt http_conn_id); [|split; [reflexivity|]; intros ep E; discriminate].
    cbv zeta. split; [reflexivity|]. intros ep E. simpl in E.
    destruct (truthy (extra_get (extra_dejson conn) (str "channel"))).
    + injection E as <-. discriminate.
    + destruct (truthy (extra_get (extra_dejson conn) (str "endpoint"))) eqn:Hep;
        [|discriminate].
      injection E as <-. intros Hnil. rewrite Hnil in Hep. discriminate.
  - rewrite (get_endpoint_lookup_fails _ _ _ _ Hconn). split; [reflexivity|].
    intros ep E. discriminate.
Qed.

(** ** Further properties of the payload *)

Section PayloadText.

Import json.

Lemma hexdigit_printable (d : N) : d < 16 -> printable_ascii (hexdigit d) = true.
Proof.
  intros Hd. unfold printable_ascii, hexdigit.
  destruct (N.ltb_spec d 10); apply andb_true_intro; split; apply N.leb_le; lia.
Qed.

Lemma hex4_printable (n : N) : forallb printable_ascii (hex4 n) = true.
Proof.
  unfold hex4. cbn [forallb].
  rewrite !hexdigit_printable by (apply N.mod_lt; discriminate). reflexivity.
Qed.

Lemma escape_char_printable (c : N) : forallb printable_ascii (escape_char c) = true.
Proof.
  unfold escape_char.
  destruct (c =? BACKSLASH); [reflexivity|].
  destruct (c =? QUOTE); [reflexivity|].
  destruct ((32 <=? c) && (c <=? 126)) eqn:Hp.
  { cbn [forallb]. unfold printable_ascii. now rewrite Hp. }
  destruct (c =? 8); [reflexivity|]. destruct (c =? 12); [reflexivity|].
  destruct (c =? 10); [reflexivity|]. destruct (c =? 13); [reflexivity|].
  destruct (c =? 9); [reflexivity|].
  destruct (c <? 0x10000); cbv zeta.
  - rewrite forallb_app, hex4_printable. reflexivity.
  - rewrite !forallb_app, !hex4_printable. reflexivity.
Qed.

Lemma escape_printable (s : pystr) : forallb printable_ascii (escape s) = true.
Proof.
  induction s as [|c s IH]; [reflexivity|].
  unfold escape. cbn [flat_map]. rewrite forallb_app, escape_char_printable.
  exact IH.
Qed.

Lemma hex4_length (n : N) : length (hex4 n) = 4%nat.
Proof. reflexivity. Qed.

Lemma escape_char_length (c : N) :
  (1 <= length (escape_char c) <= 12)%nat.
Proof.
  unfold escape_char.
  destruct (c =? BACKSLASH); [simpl; lia|].
  destruct (c =? QUOTE); [simpl; lia|].
  destruct ((32 <=? c) && (c <=? 126)); [simpl; lia|].
  destruct (c =? 8); [simpl; lia|]. destruct (c =? 12); [simpl; lia|].
  destruct (c =? 10); [simpl; lia|]. destruct (c =? 13); [simpl; lia|].
  destruct (c =? 9); [simpl; lia|].
  destruct (c <? 0x10000); cbv zeta; rewrite !length_app, !hex4_length; simpl; lia.
Qed.

Lemma escape_length (s : pystr) :
  (length s <= length (escape s) <= 12 * length s)%nat.
Proof.
  induction s as [|c s IH]; [simpl; lia|].
  unfold escape in *. cbn [flat_map]. rewrite length_app.
  pose proof (escape_char_length c). cbn [length]. lia.
Qed.

End PayloadText.

Lemma returned_eq {A : Type} (a b : A) (w w' : world) :
  (Return a, w) = (Return b, w') -> a = b /\ w = w'.
Proof. intros E. injection E. auto. Qed.

(** The body that [_build_payload] returns is plain printable ASCII,
    whatever characters the message holds: [json.dumps] escapes the rest. *)
Theorem build_payload_ascii (self : DiscordBotWebhookHook.t) (message body : pystr)
    (w w' : world) :
  _build_payload self message w = (Return body, w') ->
  forallb printable_ascii body = true.
Proof.
  intros E.
  destruct (Z.leb_spec (len message) 2000) as [Hle|Hgt].
  - rewrite (build_payload_ok _ _ _ Hle) in E. apply returned_eq in E as [<- _].
    rewrite dumps_payload, !forallb_app. cbn [forallb].
    rewrite escape_printable. destruct (tts self); reflexivity.
  - unfold _build_payload in E. run_monad.
    destruct (Z.leb_spec (len message) 2000); [lia | discriminate].
Qed.

Lemma build_payload_ascii_witness :
  let self := {| method := default_method; http_conn_id := None; token := str "T1";
                 endpoint := None; message := []; tts := true |} in
  let message := [233; 0x1f600; 10; 0xd800; 127] in
  exists body,
    _build_payload self message empty_world = (Return body, empty_world) /\
    forallb printable_ascii body = true.
Proof.
  intros self message. eexists. split; [reflexivity|].
  apply (build_payload_ascii self message _ empty_world empty_world). reflexivity.
Defined.

(** The size of the body: for a message of [n] characters that fits, the
    body has at least [n + 28] and at most [12 * n + 29] characters, so at
    most 24029. *)
Theorem build_payload_size (self : DiscordBotWebhookHook.t) (message body : pystr)
    (w w' : world) :
  _build_payload self message w = (Return body, w') ->
  (len message + 28 <= len body <= 12 * len message + 29)%Z /\
  (len body <= 24029)%Z.
Proof.
  intros E.
  destruct (Z.leb_spec (len message) 2000) as [Hle|Hgt].
  - rewrite (build_payload_ok _ _ _ Hle) in E. apply returned_eq in E as [<- _].
    rewrite dumps_payload. unfold len in *. rewrite length_app. cbn [length].
    rewrite length_app. cbn [length].
    pose proof (escape_length message) as Hesc.
    assert (Hs : (14 <= length (payload_suffix (tts self)) <= 15)%nat)
      by (destruct (tts self); simpl; lia).
    change (length payload_prefix) with 13%nat. lia.
  - unfold _build_payload in E. run_monad.
    destruct (Z.leb_spec (len message) 2000); [lia | discriminate].
Qed.

Lemma build_payload_size_witness :
  let self := {| method := default_method; http_conn_id := None; token := str "T1";
                 endpoint := None; message := []; tts := false |} in
  let message := [0x1f600; 0x1f600] in
  exists body,
    _build_payload self message empty_world = (Return body, empty_world) /\
    (len message + 28 <= len body <= 12 * len message + 29)%Z /\
    len body = 53%Z.
Proof.
  intros self message. eexists. split; [reflexivity|].
  split; [|reflexivity].
  apply (build_payload_size self message _ empty_world empty_world). reflexivity.
Defined.

Section Joining.

Import json.

Lemma surrogate_escape (c : N) :
  0xd800 <= c <= 0xdfff -> escape_char c = BACKSLASH :: 117 :: hex4 c.
Proof.
  intros Hc. unfold escape_char.
  destruct (N.eqb_spec c BACKSLASH) as [E|_]; [unfold BACKSLASH in E; lia|].
  destruct (N.eqb_spec c QUOTE) as [E|_]; [unfold QUOTE in E; lia|].
  replace ((32 <=? c) && (c <=? 126)) with false
    by (symmetry; apply andb_false_intro2, N.leb_gt; lia).
  destruct (N.eqb_spec c 8); [lia|]. destruct (N.eqb_spec c 12); [lia|].
  destruct (N.eqb_spec c 10); [lia|]. destruct (N.eqb_spec c 13); [lia|].
  destruct (N.eqb_spec c 9); [lia|].
  destruct (N.ltb_spec c 0x10000); [reflexivity | lia].
Qed.

Lemma high_surrogate_range (c : N) : is_high_surrogate c = true -> 0xd800 <= c <= 0xdbff.
Proof.
  unfold is_high_surrogate. intros Hh. apply andb_prop in Hh as [H1 H2].
  apply N.leb_le in H1, H2. lia.
Qed.

Lemma low_surrogate_range (c : N) : is_low_surrogate c = true -> 0xdc00 <= c <= 0xdfff.
Proof.
  unfold is_low_surrogate. intros Hh. apply andb_prop in Hh as [H1 H2].
  apply N.leb_le in H1, H2. lia.
Qed.

(** The encoder's text of any string, read back. *)
Lemma scanstring_escape_joined (n : nat) (s rest : pystr) :
  (length s <= n)%nat ->
  Forall is_codepoint s ->
  scanstring (escape s ++ QUOTE :: rest) = Some (join_pairs s, rest).
Proof.
  revert s. induction n as [|n IH]; intros s Hlen Hs.
  - destruct s; [reflexivity | simpl in Hlen; lia].
  - destruct s as [|a [|b r']]; [reflexivity| |].
    + apply Forall_cons in Hs as [Ha _].
      unfold escape. cbn [flat_map]. rewrite app_nil_r.
      rewrite (scan_escape_shape a _ _ (escape_char_shape a Ha)); [reflexivity|].
      intros _ r3 E. discriminate E.
    + pose proof Hs as Hs0. apply Forall_cons in Hs as [Ha Hs'].
      cbn [join_pairs].
      destruct (is_high_surrogate a && is_low_surrogate b) eqn:Hpair.
      * apply andb_prop in Hpair as [Hhi Hlo].
        apply Forall_cons in Hs' as [Hb Hr'].
        unfold escape. cbn [flat_map]. fold (escape r').
        rewrite (surrogate_escape a) by (apply high_surrogate_range in Hhi; lia).
        rewrite (surrogate_escape b) by (apply low_surrogate_range in Hlo; lia).
        cbn [app]. rewrite <- !app_assoc. cbn [app]. rewrite <- !app_assoc.
        rewrite scan_pair;
          [|apply high_surrogate_range in Hhi; lia
           |apply low_surrogate_range in Hlo; lia | exact Hhi | exact Hlo].
        rewrite (IH r'); [reflexivity | simpl in Hlen; lia | exact Hr'].
      * unfold escape. cbn [flat_map]. rewrite <- app_assoc.
        change (flat_map escape_char (b :: r')) with (escape (b :: r')).
        change (escape_char b ++ flat_map escape_char r') with (escape (b :: r')).
        rewrite (scan_escape_shape a _ _ (escape_char_shape a Ha)).
        -- rewrite (IH (b :: r')); [reflexivity | simpl in *; lia | exact Hs'].
        -- intros Hhi. apply no_low_escape_escape; [exact Hs'|].
           rewrite Hhi in Hpair. exact Hpair.
Qed.

Lemma join_pairs_length (s : pystr) : (length (join_pairs s) <= length s)%nat.
Proof.
  assert (G : forall n s, (length s <= n)%nat -> (length (join_pairs s) <= length s)%nat).
  { clear s. induction n as [|n IH]; intros s Hlen.
    - destruct s; [simpl; lia | simpl in Hlen; lia].
    - destruct s as [|a [|b r']]; [simpl; lia | simpl; lia |].
      change (join_pairs (a :: b :: r'))
        with (if is_high_surrogate a && is_low_surrogate b
              then join_surrogates a b :: join_pairs r'
              else a :: join_pairs (b :: r')).
      destruct (is_high_surrogate a && is_low_surrogate b).
      + pose proof (IH r' ltac:(cbn [length] in Hlen; lia)) as IH1. cbn [length]. lia.
      + pose proof (IH (b :: r') ltac:(cbn [length] in Hlen |- *; lia)) as IH1.
        change (length (a :: join_pairs (b :: r')))
          with (S (length (join_pairs (b :: r')))).
        change (length (a :: b :: r')) with (S (length (b :: r'))). lia. }
  apply (G (length s)). lia.
Qed.

Lemma join_pairs_id (s : pystr) : has_surrogate_pair s = false -> join_pairs s = s.
Proof.
  induction s as [|a s IH]; [reflexivity|].
  destruct s as [|b r']; [reflexivity|].
  cbn [has_surrogate_pair join_pairs]. intros Hp.
  apply orb_false_elim in Hp as [Hp Hrest]. rewrite Hp. f_equal. now apply IH.
Qed.

End Joining.

Section PayloadJoined.

Variable message : pystr.
Variable tts : bool.
Hypothesis Hvalid : Forall is_codepoint message.

Lemma scan_payload_joined (fuel : nat) :
  json.scan_once (4 + fuel)
    (payload_prefix ++ json.escape message ++ QUOTE :: payload_suffix tts)
  = Some (PyDict [(str "content", PyStr (join_pairs message)); (str "tts", PyBool tts)],
          []).
Proof.
  change (payload_prefix ++ json.escape message ++ QUOTE :: payload_suffix tts)
    with (123 :: QUOTE :: str "content" ++ QUOTE :: 58 :: 32 :: QUOTE
            :: (json.escape message ++ QUOTE :: payload_suffix tts)).
  change (4 + fuel)%nat with (S (S (S (S fuel)))).
  rewrite scan_once_object.
  rewrite (object_loop_more (S (S fuel)) _
             (QUOTE :: json.escape message ++ QUOTE :: payload_suffix tts)
             (str "tts" ++ QUOTE :: 58 :: 32 :: (if tts then str "true}" else str "false}"))
             [] (str "content") (PyStr (join_pairs message)) [(str "tts", PyBool tts)]).
  - reflexivity.
  - reflexivity.
  - reflexivity.
  - rewrite scan_once_string,
      (scanstring_escape_joined (length message) _ _ (le_n _) Hvalid).
    destruct tts; reflexivity.
  - destruct tts; reflexivity.
Qed.

Lemma loads_dumps_payload_joined :
  json.loads (json.dumps (PyDict [(str "content", PyStr message);
                                  (str "tts", PyBool tts)]))
  = Some (PyDict [(str "content", PyStr (join_pairs message)); (str "tts", PyBool tts)]).
Proof.
  rewrite dumps_payload. unfold json.loads.
  change (json.skip_ws (payload_prefix ++ json.escape message ++ QUOTE :: payload_suffix tts))
    with (payload_prefix ++ json.escape message ++ QUOTE :: payload_suffix tts).
  rewrite length_app.
  change (S (length payload_prefix + length (json.escape message ++ QUOTE :: payload_suffix tts)))
    with (4 + (10 + length (json.escape message ++ QUOTE :: payload_suffix tts)))%nat.
  rewrite scan_payload_joined. reflexivity.
Qed.

End PayloadJoined.

(** What a receiver reads in the body, for every message that fits, with
    or without surrogates: the body always parses, to an object of exactly
    the two fields [content] and [tts]; [tts] is the hook's flag, and
    [content] is the message with each high surrogate that is directly
    followed by a low surrogate joined with it into one character. So the
    content is never longer than the message, and is the message itself
    when it has no such pair. *)
Theorem build_payload_parses (self : DiscordBotWebhookHook.t) (message : pystr)
    (w : world) :
  Forall is_codepoint message ->
  (len message <= 2000)%Z ->
  exists body,
    _build_payload self message w = (Return body, w) /\
    json.loads body
    = Some (PyDict [(str "content", PyStr (join_pairs message));
                    (str "tts", PyBool (DiscordBotWebhookHook.tts self))]) /\
    (len (join_pairs message) <= len message)%Z /\
    (has_surrogate_pair message = false -> join_pairs message = message).
Proof.
  intros Hvalid Hlen. eexists. split; [now apply build_payload_ok|].
  split; [now apply loads_dumps_payload_joined|].
  split; [|apply join_pairs_id].
  unfold len. pose proof (join_pairs_length message). lia.
Qed.

Lemma build_payload_parses_witness :
  let self := {| method := default_method; http_conn_id := None; token := str "T1";
                 endpoint := None; message := []; tts := false |} in
  let message := [104; 0xd83d; 0xde00; 0xd83d; 105; 0xde00] in
  Forall is_codepoint message /\
  (len message <= 2000)%Z /\
  join_pairs message = [104; 0x1f600; 0xd83d; 105; 0xde00] /\
  exists body,
    _build_payload self message empty_world = (Return body, empty_world) /\
    json.loads body
    = Some (PyDict [(str "content", PyStr (join_pairs message));
                    (str "tts", PyBool false)]).
Proof.
  intros self message.
  assert (Hvalid : Forall is_codepoint message)
    by (repeat (constructor; [reflexivity|]); constructor).
  split; [exact Hvalid|]. split; [discriminate|]. split; [reflexivity|].
  destruct (build_payload_parses self message empty_world Hvalid) as (body & E1 & E2 & _);
    [discriminate|].
  exists body. split; [exact E1 | exact E2].
Defined.

(** Two messages without surrogate pairs that give the same body are the
    same message, sent with the same flag: the body tells messages
    apart. *)
Theorem build_payload_injective (self1 self2 : DiscordBotWebhookHook.t)
    (message1 message2 body : pystr) (w1 w1' w2 w2' : world) :
  Forall is_codepoint message1 -> has_surrogate_pair message1 = false ->
  Forall is_codepoint message2 -> has_surrogate_pair message2 = false ->
  _build_payload self1 message1 w1 = (Return body, w1') ->
  _build_payload self2 message2 w2 = (Return body, w2') ->
  message1 = message2 /\
  DiscordBotWebhookHook.tts self1 = DiscordBotWebhookHook.tts self2.
Proof.
  intros Hv1 Hp1 Hv2 Hp2 E1 E2.
  assert (L1 : (len message1 <= 2000)%Z).
  { destruct (Z.leb_spec (len message1) 2000) as [?|Hgt]; [assumption|].
    unfold _build_payload in E1. run_monad.
    destruct (Z.leb_spec (len message1) 2000); [lia | discriminate]. }
  assert (L2 : (len message2 <= 2000)%Z).
  { destruct (Z.leb_spec (len message2) 2000) as [?|Hgt]; [assumption|].
    unfold _build_payload in E2. run_monad.
    destruct (Z.leb_spec (len message2) 2000); [lia | discriminate]. }
  rewrite (build_payload_ok _ _ _ L1) in E1. apply returned_eq in E1 as [E1 _].
  rewrite (build_payload_ok _ _ _ L2) in E2. apply returned_eq in E2 as [E2 _].
  pose proof (loads_dumps_payload message1 (DiscordBotWebhookHook.tts self1) Hv1 Hp1) as P1.
  pose proof (loads_dumps_payload message2 (DiscordBotWebhookHook.tts self2) Hv2 Hp2) as P2.
  rewrite E1 in P1. rewrite E2 in P2. rewrite P1 in P2.
  assert (G : forall (m1 m2 : pystr) (b1 b2 : bool),
             Some (PyDict [(str "content", PyStr m1); (str "tts", PyBool b1)])
             = Some (PyDict [(str "content", PyStr m2); (str "tts", PyBool b2)]) ->
             m1 = m2 /\ b1 = b2).
  { intros m1 m2 b1 b2 E. injection E. auto. }
  exact (G _ _ _ _ P2).
Qed.

Lemma build_payload_injective_witness :
  let self1 := {| method := default_method; http_conn_id := None; token := str "T1";
                  endpoint := None; message := []; tts := true |} in
  let self2 := {| method := default_method; http_conn_id := Some (str "discord_default");
                  token := str "T9"; endpoint := Some (str "channels/7/messages");
                  message := str "other"; tts := true |} in
  exists body,
    _build_payload self1 (str "hi") empty_world = (Return body, empty_world) /\
    _build_payload self2 (str "hi") empty_world = (Return body, empty_world) /\
    str "hi" = str "hi" /\ DiscordBotWebhookHook.tts self1 = DiscordBotWebhookHook.tts self2.
Proof.
  intros self1 self2. eexists. split; [reflexivity|]. split; [reflexivity|].
  assert (Hvalid : Forall is_codepoint (str "hi"))
    by (repeat (constructor; [reflexivity|]); constructor).
  apply (build_payload_injective self1 self2 (str "hi") (str "hi") _
           empty_world empty_world empty_world empty_world
           Hvalid eq_refl Hvalid eq_refl eq_refl eq_refl).
Defined.

(** ** The operator, end to end *)

(** The length check comes last: when the hook has been built and the
    message has more than 2000 characters, the operator raises the
    validation error and calls [run] not at all, and the world is as the
    constructor left it, with the warning of a legacy token, if any,
    already emitted. *)
Theorem operator_rejects_long_message `{HttpHook} (self : DiscordBotOperator.t)
    (hook : DiscordBotWebhookHook.t) (w w1 : world) :
  __init__ (DiscordBotOperator.http_conn_id self) (DiscordBotOperator.message self)
    (DiscordBotOperator.channel self) (DiscordBotOperator.tts self) w
  = (Return hook, w1) ->
  (len (DiscordBotOperator.message self) > 2000)%Z ->
  DiscordBotOperator.execute self w
  = (Raise (AirflowException
              "Discord message length must be 2000 or fewer characters."), w1)
  /\ run_log w1 = run_log w.
Proof.
  intros Ei Hlen.
  destruct (get_token_footprint (DiscordBotOperator.http_conn_id self) w)
    as (ws & Ew & _).
  assert (Hm : message hook = DiscordBotOperator.message self /\ run_log w1 = run_log w).
  { unfold __init__, bind in Ei.
    destruct (_get_token _ w) as [[tok|?] w0]; [|discriminate].
    pose proof (get_endpoint_world (DiscordBotOperator.http_conn_id self)
                  (DiscordBotOperator.channel self) w0) as Ee.
    destruct (_get_endpoint _ _ w0) as [[ep|?] w2]; [|discriminate].
    unfold ret in Ei. apply returned_eq in Ei as [<- <-].
    simpl in Ee, Ew. subst w2. rewrite Ew. split; reflexivity. }
  destruct Hm as [Hm Hlog]. split; [|exact Hlog].
  unfold DiscordBotOperator.execute, bind. rewrite Ei.
  apply execute_too_long. now rewrite Hm.
Qed.

Lemma operator_rejects_long_message_witness :
  let self := {| DiscordBotOperator.http_conn_id := Some (str "discord_legacy");
                 DiscordBotOperator.message := Sample.long_message;
                 DiscordBotOperator.channel := [];
                 DiscordBotOperator.tts := false |} in
  (len (DiscordBotOperator.message self) > 2000)%Z /\
  @DiscordBotOperator.execute Sample.airflow self empty_world
  = (Raise (AirflowException
              "Discord message length must be 2000 or fewer characters."),
     {| warnings_log :=
          [Warn "'password' field is more recommended than 'bot_token' in 'extra'."
                "Warning" 2];
        run_log := [] |}).
Proof.
  intros self. split; [reflexivity|].
  exact (proj1 (@operator_rejects_long_message Sample.airflow self _ empty_world _
                  eq_refl eq_refl)).
Defined.

(** The way the operator is meant to be used: the connection has a
    non-empty password, a channel is given, the message fits and has no
    surrogate pair, and the transport takes the call. Then the operator
    returns, warns of nothing and makes exactly one call: a POST to
    [channels/{channel}/messages], authorised as [Bot ] followed by the
    password, whose body parses to the message and the flag. *)
Theorem operator_happy_path `{HttpHook} (self : DiscordBotOperator.t)
    (conn : Connection) (p : pystr) (w : world) :
  get_connection (DiscordBotOperator.http_conn_id self) = Return conn ->
  password conn = Some p -> p <> [] ->
  DiscordBotOperator.channel self <> [] ->
  (len (DiscordBotOperator.message self) <= 2000)%Z ->
  Forall is_codepoint (DiscordBotOperator.message self) ->
  has_surrogate_pair (DiscordBotOperator.message self) = false ->
  (forall call, transport call = None) ->
  exists body,
    DiscordBotOperator.execute self w
    = (Return tt,
       {| warnings_log := warnings_log w;
          run_log := run_log w ++
            [ {| run_method := str "POST";
                 run_endpoint := Some (str "channels/" ++ DiscordBotOperator.channel self
                                       ++ str "/messages");
                 run_data := body;
                 run_headers := [ (str "Content-type", str "application/json");
                                  (str "Authorization", str "Bot " ++ p) ] |} ] |})
    /\ json.loads body
       = Some (PyDict [(str "content", PyStr (DiscordBotOperator.message self));
                       (str "tts", PyBool (DiscordBotOperator.tts self))]).
Proof.
  intros Hconn Hp Hne Hch Hlen Hvalid Hpair Htr.
  assert (Et : _get_token (DiscordBotOperator.http_conn_id self) w = (Return p, w)).
  { rewrite (get_token_unfold _ _ Hconn), Hp. simpl. now rewrite (truthy_nonempty _ Hne). }
  assert (Ee : _get_endpoint (DiscordBotOperator.http_conn_id self)
                 (DiscordBotOperator.channel self) w
               = (Return (Some (channel_endpoint (DiscordBotOperator.channel self))), w)).
  { rewrite (get_endpoint_unfold _ _ Hconn). now rewrite (truthy_nonempty _ Hch). }
  eexists. split.
  - rewrite (operator_execute_sends self _ _ w w w Et Ee Hlen). rewrite Htr. reflexivity.
  - now apply loads_dumps_payload.
Qed.

Lemma operator_happy_path_witness :
  let self := {| DiscordBotOperator.http_conn_id := Some (str "discord_default");
                 DiscordBotOperator.message := [104; 105; 32; 0x1f600];
                 DiscordBotOperator.channel := str "123";
                 DiscordBotOperator.tts := true |} in
  exists body,
    fst (@DiscordBotOperator.execute Sample.airflow self empty_world) = Return tt /\
    run_log (snd (@DiscordBotOperator.execute Sample.airflow self empty_world))
    = [ {| run_method := str "POST";
           run_endpoint := Some (str "channels/123/messages");
           run_data := body;
           run_headers := [ (str "Content-type", str "application/json");
                            (str "Authorization", str "Bot T1") ] |} ]
    /\ json.loads body
       = Some (PyDict [(str "content", PyStr [104; 105; 32; 0x1f600]);
                       (str "tts", PyBool true)]).
Proof.
  intros self.
  assert (Hvalid : Forall is_codepoint (DiscordBotOperator.message self))
    by (repeat (constructor; [reflexivity|]); constructor).
  destruct (@operator_happy_path Sample.airflow self Sample.conn_secret (str "T1")
              empty_world eq_refl eq_refl ltac:(discriminate) ltac:(discriminate)
              ltac:(discriminate) Hvalid eq_refl (fun _ => eq_refl))
    as (body & E & L).
  exists body. rewrite E. repeat split. exact L.
Defined.
